(** * KYC ID validator: the image validator (app/image_validator.py)

    A shallow embedding of the document image classification engine:
    the identity-number format checker, the rotation-aware text
    extraction, the name matcher and the decision cascade of
    [analyze_id_image].

    Conventions of the embedding.
    - A Python [str] is a [string]; a character is a code point below
      256, so the character classes below are the Latin-1 part of the
      Unicode classes Python uses.
    - A Python [float] is a rational ([Q]): every binary64 value is one.
      What is measured on the image enters as such a rational and is
      compared exactly.  Where the source computes with floats and the
      rounding decides a test (the document score, the quality score
      of a text), literals and operations round to binary64
      ([Binary64]).
    - The optional modules [cv2], [pytesseract] and [Levenshtein] are
      values of an [option] type: [None] is the module that failed to
      import.  What the modules compute on pixels is not part of the
      repository and is taken as given (fields of [Cv2], [Tesseract]).
    - An exception that leaves a function is the [Raised] outcome.
    - Log lines, debug files and printed text are not modelled, except
      the order of the OCR attempts. *)

From Stdlib Require Import Bool Arith List Lia ZArith QArith Qround Qminmax Lqa.
From Stdlib Require Import Qpower.
From Stdlib Require Import Ascii String DecimalString Permutation.
Import ListNotations.

Open Scope list_scope.
Open Scope string_scope.
Open Scope bool_scope.
Open Scope nat_scope.

(* ------------------------------------------------------------------ *)
(** ** Python string primitives *)

Module Py.

(** [str.isspace] on one character, below code point 256:
    TAB..CR, FS..US, SPACE, NEL and NBSP. *)
Definition is_space (c : ascii) : bool :=
  let n := nat_of_ascii c in
  ((9 <=? n) && (n <=? 13)) || ((28 <=? n) && (n <=? 32))
  || (n =? 133) || (n =? 160).

(** [\d] of the [re] module: the decimal digits (category Nd). *)
Definition is_digit (c : ascii) : bool :=
  let n := nat_of_ascii c in (48 <=? n) && (n <=? 57).

(** The class [a-zA-Z]. *)
Definition is_ascii_letter (c : ascii) : bool :=
  let n := nat_of_ascii c in
  ((65 <=? n) && (n <=? 90)) || ((97 <=? n) && (n <=? 122)).

(** [str.isalpha] on one character (general category L). *)
Definition is_alpha (c : ascii) : bool :=
  let n := nat_of_ascii c in
  is_ascii_letter c || (n =? 170) || (n =? 181) || (n =? 186)
  || ((192 <=? n) && (n <=? 214)) || ((216 <=? n) && (n <=? 246))
  || ((248 <=? n) && (n <=? 255)).

(** [str.lower] on one character. *)
Definition lower_char (c : ascii) : ascii :=
  let n := nat_of_ascii c in
  if ((65 <=? n) && (n <=? 90))
     || ((192 <=? n) && (n <=? 214)) || ((216 <=? n) && (n <=? 222))
  then ascii_of_nat (n + 32) else c.

(** Keep the characters satisfying [f]: [re.sub] of the complement
    class by the empty string. *)
Fixpoint keep (f : ascii -> bool) (s : string) : string :=
  match s with
  | EmptyString => EmptyString
  | String c s' => if f c then String c (keep f s') else keep f s'
  end.

Fixpoint map_chars (f : ascii -> ascii) (s : string) : string :=
  match s with
  | EmptyString => EmptyString
  | String c s' => String (f c) (map_chars f s')
  end.

Definition lower (s : string) : string := map_chars lower_char s.

(** How many characters of [s] satisfy [f]. *)
Fixpoint count_chars (f : ascii -> bool) (s : string) : nat :=
  match s with
  | EmptyString => 0
  | String c s' => (if f c then 1 else 0) + count_chars f s'
  end.

(** Truth value of a string: non-empty. *)
Definition truthy (s : string) : bool :=
  match s with EmptyString => false | String _ _ => true end.

(** Truth value of an optional string: neither [None] nor empty. *)
Definition truthy_opt (o : option string) : bool :=
  match o with None => false | Some s => truthy s end.

Fixpoint lstrip (s : string) : string :=
  match s with
  | EmptyString => EmptyString
  | String c s' => if is_space c then lstrip s' else s
  end.

Fixpoint rstrip (s : string) : string :=
  match s with
  | EmptyString => EmptyString
  | String c s' =>
      match rstrip s' with
      | EmptyString => if is_space c then EmptyString else String c EmptyString
      | r => String c r
      end
  end.

(** [str.strip()]. *)
Definition strip (s : string) : string := rstrip (lstrip s).

(** The token being read, if any, is closed. *)
Definition emit (cur : string) : list string :=
  if truthy cur then [cur] else [].

(** [str.split()] with a token [cur] already begun. *)
Fixpoint split_from (cur s : string) : list string :=
  match s with
  | EmptyString => emit cur
  | String c s' =>
      if is_space c then (emit cur ++ split_from EmptyString s')%list
      else split_from (cur ++ String c EmptyString) s'
  end.

(** [str.split()]: the maximal runs of non-whitespace characters. *)
Definition split (s : string) : list string := split_from EmptyString s.

(** [str.split(sep)] on a one-character separator: every separator
    cuts, empty pieces are kept, there is always at least one piece. *)
Fixpoint split_on_from (sep : ascii) (cur s : string) : list string :=
  match s with
  | EmptyString => [cur]
  | String c s' =>
      if Ascii.eqb c sep then cur :: split_on_from sep EmptyString s'
      else split_on_from sep (cur ++ String c EmptyString) s'
  end.

Definition split_on (sep : ascii) (s : string) : list string :=
  split_on_from sep EmptyString s.

(** [sep.join(pieces)]. *)
Definition join (sep : string) (pieces : list string) : string :=
  String.concat sep pieces.

(** [s.startswith(p)]. *)
Definition startswith (s p : string) : bool := String.prefix p s.

(** [x in xs] for strings. *)
Definition mem (x : string) (xs : list string) : bool :=
  existsb (String.eqb x) xs.

(** [str(n)] for a non-negative integer. *)
Definition str_of_nat (n : nat) : string :=
  NilEmpty.string_of_uint (Nat.to_uint n).

(** The line feed. *)
Definition LF : ascii := ascii_of_nat 10.

(** [max(a, b)] on floats: the first argument unless the second is
    strictly larger. *)
Definition max2 (a b : Q) : Q := if Qle_bool b a then a else b.

(** [min(a, b)] on floats: the first argument unless the second is
    strictly smaller. *)
Definition min2 (a b : Q) : Q := if Qle_bool a b then a else b.

(** [max(xs, default=d)]. *)
Definition max_default (d : Q) (xs : list Q) : Q :=
  match xs with
  | [] => d
  | x :: rest => fold_left max2 rest x
  end.

(** [a >= b] and [a < b] on floats. *)
Definition ge (a b : Q) : bool := Qle_bool b a.
Definition lt (a b : Q) : bool := negb (Qle_bool b a).
Definition gt (a b : Q) : bool := negb (Qle_bool a b).
Definition le (a b : Q) : bool := Qle_bool a b.

End Py.

(* ------------------------------------------------------------------ *)
(** ** Binary64 arithmetic *)

(** Nearest integer, ties to the even one. *)
Definition round_half_even (q : Q) : Z :=
  let f := Qfloor q in
  match ((q - inject_Z f) ?= 1 # 2)%Q with
  | Lt => f
  | Gt => (f + 1)%Z
  | Eq => if Z.even f then f else (f + 1)%Z
  end.

Module Binary64.

(** The power of two [2^e]. *)
Definition pow2 (e : Z) : Q := (2 ^ e)%Q.

(** For positive [q], the exponent [E] with [2^E <= q < 2^(E+1)]:
    the difference of the bit lengths of numerator and denominator,
    or one less. *)
Definition binade (q : Q) : Z :=
  let l := (Z.log2 (Qnum q) - Z.log2 (Zpos (Qden q)))%Z in
  if Qle_bool (pow2 l) q then l else (l - 1)%Z.

(** The exponent of the spacing of the binary64 values around [q]:
    53 significant bits, and never below the subnormal spacing
    [2^-1074]. *)
Definition spacing_exponent (q : Q) : Z :=
  Z.max (binade q - 52) (-1074).

(** The binary64 value nearest to a positive [q], ties to the even
    significand. *)
Definition round_magnitude (q : Q) : Q :=
  let e := spacing_exponent q in
  Qred (inject_Z (round_half_even (q * pow2 (- e))) * pow2 e).

(** Rounding to binary64 (round to nearest, ties to even).  The
    results in this file stay far below the largest binary64 value,
    so no overflow is modelled. *)
Definition round (q : Q) : Q :=
  match Qnum q with
  | Z0 => 0%Q
  | Zpos _ => round_magnitude q
  | Zneg _ => (- round_magnitude (- q))%Q
  end.

(** A decimal literal of the source. *)
Definition literal (q : Q) : Q := round q.

(** [a + b], [a - b] and [a * b] on floats. *)
Definition add (a b : Q) : Q := round (a + b).
Definition sub (a b : Q) : Q := round (a - b).
Definition mul (a b : Q) : Q := round (a * b).

(** [float(n)] for a non-negative integer. *)
Definition of_int (n : nat) : Q := round (inject_Z (Z.of_nat n)).

(** [a / b] on non-negative integers, [b] not 0: the quotient,
    rounded once. *)
Definition div_int (a b : nat) : Q :=
  round (inject_Z (Z.of_nat a) / inject_Z (Z.of_nat b)).

End Binary64.

(* ------------------------------------------------------------------ *)
(** ** ID type configuration and the identity-number format checker *)

(** [ID_DIGIT_REQUIREMENTS]: normalized ID type to expected digit count. *)
Definition ID_DIGIT_REQUIREMENTS : list (string * nat) :=
  [ ("National ID", 16);
    ("SSS", 10);
    ("UMID", 12);
    ("GSIS", 11);
    ("PRC ID", 7);
    ("Driver's License", 11);
    ("Passport", 9);
    ("PhilHealth", 12);
    ("Voter's ID", 9);
    ("TIN ID", 9) ].

(** [dict.get(key)]: the value of the key, or [None]. *)
Fixpoint dict_get {V : Type} (d : list (string * V)) (key : string)
  : option V :=
  match d with
  | [] => None
  | (k, v) :: d' => if String.eqb k key then Some v else dict_get d' key
  end.

Definition id_type_aliases : list (string * string) :=
  [ ("UMID (Unified Multi-Purpose ID)", "UMID");
    ("PRC ID (Professional License)", "PRC ID");
    ("National ID (PhilSys)", "National ID");
    ("Driver's License", "Driver's License");
    ("Drivers License", "Driver's License") ].

Definition _normalize_id_type (id_type : option string) : string :=
  match id_type with
  | None => "Others"
  | Some t =>
      if negb (Py.truthy t) then "Others"
      else
        let normalized := Py.strip t in
        match dict_get id_type_aliases normalized with
        | Some canonical => canonical
        | None => normalized
        end
  end.

(** [re.sub(r'\D', '', id_number)]. *)
Definition digits_only (id_number : string) : string :=
  Py.keep Py.is_digit id_number.

Definition _validate_id_number_format
  (id_number : option string) (id_type : string) : bool * string :=
  match id_number with
  | None => (true, "No ID number provided for format check.")
  | Some number =>
      if negb (Py.truthy number)
      then (true, "No ID number provided for format check.")
      else
        let digits := digits_only number in
        match dict_get ID_DIGIT_REQUIREMENTS id_type with
        | None =>
            (true, "No digit requirement defined for " ++ id_type ++ ".")
        | Some expected =>
            if String.length digits =? expected
            then (true,
                  id_type ++ " number has correct "
                  ++ Py.str_of_nat expected ++ "-digit format.")
            else (false,
                  id_type ++ " number must have exactly "
                  ++ Py.str_of_nat expected ++ " digits (found "
                  ++ Py.str_of_nat (String.length digits)
                  ++ " digits in '" ++ number ++ "').")
        end
  end.

(* ------------------------------------------------------------------ *)
(** ** Results *)

Inductive Status := Valid | Invalid.
Inductive Category := identification_card | selfie | unknown.
Inductive CheckStatus := pass | warn | fail.

Module ImageCheck.
Record t := mk { name : string; status : CheckStatus; detail : string }.
End ImageCheck.

Record ImageAnalysisResult := {
  status : Status;
  category : Category;
  message : string;
  reasons : list string;
  checks : list ImageCheck.t;
  confidence : Q
}.

(** What a call produces: a value, or an exception. *)
Inductive Outcome (A : Type) := Returned (a : A) | Raised.
Arguments Returned {A} a.
Arguments Raised {A}.

(* ------------------------------------------------------------------ *)
(** ** The optional modules *)

Inductive RotateCode :=
  ROTATE_90_CLOCKWISE | ROTATE_90_COUNTERCLOCKWISE | ROTATE_180.

(** [_compute_quality_metrics] returns a dict with these four keys. *)
Record QualityMetrics := {
  brightness : Q;
  contrast : Q;
  sharpness : Q;
  edge_density : Q
}.

Section Engine.

(** A decoded image (a numpy array). *)
Context {Image : Type}.

(** OpenCV (with numpy), as far as the validator calls it. *)
Record Cv2 := {
  (** [urlopen] and [imdecode] of [_download_image]; [None] when the
      request fails or the bytes do not decode (an exception). *)
  fetch_decode : string -> option Image;
  (** [cvtColor(image, COLOR_BGR2GRAY)]. *)
  to_gray : Image -> Image;
  (** [rotate(image, code)]. *)
  rotate : Image -> RotateCode -> Image;
  (** Mean, standard deviation, Laplacian variance and Canny edge
      fraction of a grayscale image. *)
  measure_quality : Image -> QualityMetrics;
  (** Non-zero fraction of the Otsu-thresholded blackhat image
      (0 for an image without pixels). *)
  blackhat_fraction : Image -> Q;
  (** Whether, under one of the two Canny configurations, a contour
      approximates to four vertices and covers 15% to 95% of the image. *)
  has_card_quadrilateral : Image -> bool;
  (** [detectMultiScale] of the frontal-face cascade: boxes (x, y, w, h). *)
  detect_faces : Image -> list (Z * Z * Z * Z);
  (** [gray.shape]: height and width. *)
  shape : Image -> Z * Z
}.

(** pytesseract on the three preprocessed versions of an image (Otsu,
    sharpened, CLAHE): the three recognised texts, or [None] when a
    step of the attempt raised. *)
Record Tesseract := {
  three_passes : Image -> option (string * string * string)
}.

(** The module globals [cv2], [pytesseract] and [Levenshtein]
    ([Levenshtein.ratio] is all the validator uses of the last). *)
Record Modules := {
  cv2 : option Cv2;
  pytesseract : option Tesseract;
  Levenshtein : option (string -> string -> Q)
}.

Definition _download_image (M : Modules) (image_url : string)
  : Outcome Image :=
  match cv2 M with
  | None => Raised
  | Some cv =>
      match fetch_decode cv image_url with
      | None => Raised
      | Some image => Returned image
      end
  end.

Definition _detect_document_like_shape (M : Modules) (gray_image : Image)
  : bool :=
  match cv2 M with
  | None => false
  | Some cv => has_card_quadrilateral cv gray_image
  end.

Definition _estimate_text_density (M : Modules) (gray_image : Image) : Q :=
  match cv2 M with
  | None => 0%Q
  | Some cv => blackhat_fraction cv gray_image
  end.

Definition _compute_quality_metrics (M : Modules) (gray_image : Image)
  : QualityMetrics :=
  match cv2 M with
  | None =>
      {| brightness := 0; contrast := 0; sharpness := 0; edge_density := 0 |}
  | Some cv => measure_quality cv gray_image
  end.

(* ------------------------------------------------------------------ *)
(** ** Text extraction *)

(** An integer as a float. *)
Definition float_of_nat (n : nat) : Q := inject_Z (Z.of_nat n).

(** Single OCR attempt: the non-empty pass outputs joined by newlines
    and trimmed; the empty string when a module is missing or a step
    raised. *)
Definition _ocr_attempt (M : Modules) (img : Image) : string :=
  match cv2 M, pytesseract M with
  | Some _, Some tess =>
      match three_passes tess img with
      | Some (text1, text2, text3) =>
          let combined :=
            Py.join (String Py.LF "")
                    (filter Py.truthy [text1; text2; text3]) in
          Py.strip combined
      | None => ""
      end
  | _, _ => ""
  end.

(** Score OCR quality: alphabetic fraction times the number of tokens
    of at least three characters, the quotient and the product each
    rounded to binary64. *)
Definition _text_quality_score (text : string) : Q :=
  if negb (Py.truthy text) || (String.length text <? 10) then 0%Q
  else
    let alpha_count := Py.count_chars Py.is_alpha text in
    if String.length text =? 0 then 0%Q
    else
      let alpha_ratio :=
        Binary64.div_int alpha_count (String.length text) in
      let words :=
        filter (fun w => 3 <=? String.length w) (Py.split text) in
      let word_count := List.length words in
      Binary64.mul alpha_ratio (Binary64.of_int word_count).

(** The rotation applied for an angle of the search. *)
Definition rotation_for (angle : nat) : RotateCode :=
  if angle =? 90 then ROTATE_90_CLOCKWISE
  else if angle =? 270 then ROTATE_90_COUNTERCLOCKWISE
  else ROTATE_180.

(** State of the rotation loop: best text, best score, and the angles
    attempted so far (one [OCR attempt] line is printed per attempt). *)
Definition SearchState : Type := string * Q * list nat.

Definition rotation_step (M : Modules) (cv : Cv2) (image : Image)
  (st : SearchState) (angle : nat) : SearchState :=
  let '(best_text, best_score, attempts) := st in
  let rotated := rotate cv image (rotation_for angle) in
  let text_rotated := _ocr_attempt M rotated in
  let score_rotated := _text_quality_score text_rotated in
  if Py.gt score_rotated best_score
  then (text_rotated, score_rotated, (attempts ++ [angle])%list)
  else (best_text, best_score, (attempts ++ [angle])%list).

(** [_extract_text_from_image], with the attempted angles in order. *)
Definition _extract_text_from_image_log (M : Modules) (image : Image)
  : string * list nat :=
  match cv2 M, pytesseract M with
  | Some cv, Some _ =>
      let text_original := _ocr_attempt M image in
      let score_original := _text_quality_score text_original in
      if Py.lt score_original 5 then
        let '(best_text, _, attempts) :=
          fold_left (rotation_step M cv image) [90; 270; 180]
                    (text_original, score_original, [0]) in
        (best_text, attempts)
      else (text_original, [0])
  | _, _ => ("", [])
  end.

Definition _extract_text_from_image (M : Modules) (image : Image)
  : string :=
  fst (_extract_text_from_image_log M image).

End Engine.

Arguments Cv2 : clear implicits.
Arguments Tesseract : clear implicits.
Arguments Modules : clear implicits.

(* ------------------------------------------------------------------ *)
(** ** Name matching *)

(** The class [a-zA-Z\s] kept by [_normalize_name]. *)
Definition letter_or_space (c : ascii) : bool :=
  Py.is_ascii_letter c || Py.is_space c.

Definition _normalize_name (name : string) : string :=
  let normalized := Py.keep letter_or_space name in
  Py.strip (Py.lower normalized).

(** The format [{x:.0%}]. *)
Definition format_percent0 (x : Q) : string :=
  NilEmpty.string_of_int (Z.to_int (round_half_even (x * 100)%Q)) ++ "%".

(** How a claimed token was found among the OCR tokens. *)
Inductive MatchKind := exact | initial | prefix | fuzzy (best : Q).

(** Some OCR token starts with [token]. *)
Definition any_startswith (ocr_tokens : list string) (token : string)
  : bool :=
  existsb (fun t => Py.startswith t token) ocr_tokens.

(** The body of the loop over the claimed tokens, for one token: the
    kind of match recorded, or [None] when the token stays unmatched. *)
Definition match_token (ratio : string -> string -> Q)
  (ocr_tokens : list string) (token : string) : option MatchKind :=
  if Py.mem token ocr_tokens then Some exact
  else if String.length token =? 1 then
    if any_startswith ocr_tokens token then Some initial else None
  else if 3 <=? String.length token then
    if any_startswith ocr_tokens token then Some prefix
    else
      let best := Py.max_default 0%Q (map (ratio token) ocr_tokens) in
      if Py.ge best 0.82%Q then Some (fuzzy best) else None
  else None.

(** [matched_tokens] and [unmatched_tokens] after one more token. *)
Definition token_step (ratio : string -> string -> Q)
  (ocr_tokens : list string)
  (acc : list (string * MatchKind) * list string) (token : string)
  : list (string * MatchKind) * list string :=
  let '(matched_tokens, unmatched_tokens) := acc in
  match match_token ratio ocr_tokens token with
  | Some kind => ((matched_tokens ++ [(token, kind)])%list, unmatched_tokens)
  | None => (matched_tokens, (unmatched_tokens ++ [token])%list)
  end.

Definition match_tokens (ratio : string -> string -> Q)
  (ocr_tokens user_tokens : list string)
  : list (string * MatchKind) * list string :=
  fold_left (token_step ratio ocr_tokens) user_tokens ([], []).

(** The claimed tokens and the set of OCR tokens.  The set is only
    tested for membership and ranged over by [any] and [max], so a
    duplicate-free list stands for it. *)
Definition user_tokens_of (user_name : string) : list string :=
  Py.split (_normalize_name user_name).

Definition ocr_tokens_of (ocr_text : string) : list string :=
  nodup string_dec (Py.split (_normalize_name ocr_text)).

(** [match_ratio] as [_match_name] computes it. *)
Definition match_ratio_of (ratio : string -> string -> Q)
  (ocr_text user_name : string) : Q :=
  let user_tokens := user_tokens_of user_name in
  let matched_tokens :=
    fst (match_tokens ratio (ocr_tokens_of ocr_text) user_tokens) in
  match user_tokens with
  | [] => 0%Q
  | _ => (float_of_nat (List.length matched_tokens)
          / float_of_nat (List.length user_tokens))%Q
  end.

(** One round of the loop over the OCR lines. *)
Definition similarity_step (ratio : string -> string -> Q)
  (user_normalized : string) (max_similarity : Q) (line : string) : Q :=
  let line_norm := _normalize_name line in
  if Py.ge (float_of_nat (String.length line_norm))
           (float_of_nat (String.length user_normalized) * 0.4)%Q
  then
    let sim := ratio user_normalized line_norm in
    Py.max2 max_similarity sim
  else max_similarity.

(** [max_similarity] as [_match_name] computes it. *)
Definition max_similarity_of (ratio : string -> string -> Q)
  (ocr_text user_name : string) : Q :=
  fold_left (similarity_step ratio (_normalize_name user_name))
            (Py.split_on Py.LF ocr_text) 0%Q.

Definition _match_name (Levenshtein : option (string -> string -> Q))
  (ocr_text user_name : string) : bool * Q * string :=
  if negb (Py.truthy user_name) then
    (true, 0.5%Q, "Name verification skipped (no name provided).")
  else if negb (Py.truthy ocr_text)
          || (String.length (Py.strip ocr_text) <? 5) then
    (true, 0.2%Q,
     "Name verification unavailable (OCR extraction failed — manual review required).")
  else
    match Levenshtein with
    | None =>
        (true, 0.5%Q,
         "Name matching library not available (manual verification required).")
    | Some ratio =>
        match user_tokens_of user_name with
        | [] =>
            (true, 0.5%Q,
             "User name format issue (manual verification required).")
        | _ =>
            let match_ratio := match_ratio_of ratio ocr_text user_name in
            let max_similarity :=
              max_similarity_of ratio ocr_text user_name in
            if Py.ge match_ratio 0.60%Q || Py.ge max_similarity 0.65%Q then
              let confidence := Py.max2 match_ratio max_similarity in
              (true, confidence,
               "Name match found (confidence: "
               ++ format_percent0 confidence ++ ").")
            else
              let confidence := Py.max2 match_ratio max_similarity in
              (false, confidence,
               "Name mismatch detected (ID may not belong to applicant).")
        end
    end.

(* ------------------------------------------------------------------ *)
(** ** The decision engine *)

(** What [analyze_id_image] has measured on the image when it starts
    to decide. *)
Record Measurements := {
  quality : QualityMetrics;
  text_density : Q;
  largest_face_ratio : Q;
  has_document_shape : bool
}.

Section Decision.

Local Open Scope Q_scope.

Variable m : Measurements.

Definition has_card_portrait : bool :=
  Py.le 0.03 (largest_face_ratio m) && Py.le (largest_face_ratio m) 0.45.

Definition severe_blur : bool := Py.lt (sharpness (quality m)) 35.
Definition soft_blur : bool := Py.lt (sharpness (quality m)) 55.
Definition poor_lighting : bool :=
  Py.lt (brightness (quality m)) 45 || Py.gt (brightness (quality m)) 230.
Definition low_text_presence : bool := Py.lt (text_density m) 0.008.

Definition selfie_signal : bool :=
  Py.ge (largest_face_ratio m) 0.08
  && negb (has_document_shape m)
  && Py.lt (text_density m) 0.015.

Definition screenshot_like_signal : bool :=
  negb (has_document_shape m)
  && negb has_card_portrait
  && Py.ge (text_density m) 0.025
  && Py.lt (edge_density (quality m)) 0.035
  && Py.ge (sharpness (quality m)) 45.

(** The score is accumulated in binary64, one rounded addition or
    subtraction per adjustment, then clamped. *)
Definition document_score : Q :=
  let s := Binary64.literal 0.0 in
  let s := if has_document_shape m
           then Binary64.add s (Binary64.literal 0.25) else s in
  let s := if Py.ge (text_density m) 0.012
           then Binary64.add s (Binary64.literal 0.30)
           else if Py.ge (text_density m) 0.008
                then Binary64.add s (Binary64.literal 0.15) else s in
  let s := if Py.ge (sharpness (quality m)) 60
           then Binary64.add s (Binary64.literal 0.20)
           else if Py.ge (sharpness (quality m)) 40
                then Binary64.add s (Binary64.literal 0.10) else s in
  let s := if Py.ge (contrast (quality m)) 25
           then Binary64.add s (Binary64.literal 0.10) else s in
  let s := if Py.ge (edge_density (quality m)) 0.03
           then Binary64.add s (Binary64.literal 0.10) else s in
  let s := if has_card_portrait
           then Binary64.add s (Binary64.literal 0.15) else s in
  let s := if selfie_signal
           then Binary64.sub s (Binary64.literal 0.10) else s in
  let s := if screenshot_like_signal
           then Binary64.sub s (Binary64.literal 0.25) else s in
  let s := if severe_blur then Binary64.sub s (Binary64.literal 0.20)
           else if soft_blur
                then Binary64.sub s (Binary64.literal 0.08) else s in
  let s := if poor_lighting
           then Binary64.sub s (Binary64.literal 0.08) else s in
  Py.max2 0 (Py.min2 1 s).

(** The seven entries appended whatever was claimed. *)
Definition image_checks : list ImageCheck.t :=
  [ ImageCheck.mk "Card Boundary"
      (if has_document_shape m then pass else warn)
      (if has_document_shape m then "Clear ID card edges detected."
       else "No clear full-card boundary detected.");
    ImageCheck.mk "Printed Details"
      (if Py.ge (text_density m) 0.012 then pass
       else if Py.ge (text_density m) 0.008 then warn else fail)
      (if Py.ge (text_density m) 0.012
       then "Readable printed details detected."
       else if Py.ge (text_density m) 0.008
            then "Some printed details detected, clarity limited."
            else "Very low readable text detected.");
    ImageCheck.mk "Sharpness"
      (if severe_blur then fail else if soft_blur then warn else pass)
      (if severe_blur then "Image is too blurry."
       else if soft_blur then "Image is slightly blurry."
            else "Image sharpness is acceptable.");
    ImageCheck.mk "Lighting"
      (if poor_lighting then warn else pass)
      (if poor_lighting then "Lighting may affect verification accuracy."
       else "Lighting is acceptable.");
    ImageCheck.mk "Selfie Signal"
      (if selfie_signal then fail else pass)
      (if selfie_signal
       then "Dominant face without card features (selfie-like)."
       else "No selfie-only signal detected.");
    ImageCheck.mk "Card Portrait"
      (if has_card_portrait then pass else warn)
      (if has_card_portrait then "Portrait area consistent with ID layout."
       else "No clear card-portrait region detected.");
    ImageCheck.mk "Screenshot Signal"
      (if screenshot_like_signal then fail else pass)
      (if screenshot_like_signal
       then "Image appears to be a screenshot or non-ID content."
       else "No screenshot/non-ID signal detected.") ].

Variable normalized_id_type : string.
Variable id_number : option string.
Variable name_match_result : option (bool * Q * string).

Definition id_format : bool * string :=
  _validate_id_number_format id_number normalized_id_type.
Definition id_format_valid : bool := fst id_format.
Definition id_format_detail : string := snd id_format.

Definition id_type_phrase : string :=
  if Py.truthy normalized_id_type then normalized_id_type else "ID".

(** The checks list as it stands when the decision starts. *)
Definition build_checks : list ImageCheck.t :=
  let checks := image_checks in
  let checks :=
    if Py.truthy_opt id_number
    then (checks ++ [ImageCheck.mk "ID Number Format"
                       (if id_format_valid then pass else fail)
                       id_format_detail])%list
    else checks in
  match name_match_result with
  | Some (is_match, _, detail) =>
      (checks ++ [ImageCheck.mk "Name Match"
                    (if is_match then pass else fail) detail])%list
  | None => checks
  end.

(** The test of the name-mismatch exit. *)
Definition name_mismatch : bool :=
  match name_match_result with
  | Some (is_match, similarity, _) => negb is_match && Py.gt similarity 0.2
  | None => false
  end.

Definition mismatch_similarity : Q :=
  match name_match_result with
  | Some (_, similarity, _) => similarity
  | None => 0
  end.

(** A result with the two reasons of a branch; the message is the
    first reason. *)
Definition result (st : Status) (cat : Category) (reason hint : string)
  (conf : Q) : ImageAnalysisResult :=
  {| status := st; category := cat; message := reason;
     reasons := [reason; hint]; checks := build_checks;
     confidence := conf |}.

(** The early exits, the valid path and the fallback of
    [analyze_id_image], in the order of the source.  The document
    score is a binary64 value, and on it the tests against 0.45, 0.55
    and 0.40 are the tests against the binary64 literals (lemma
    [document_score_thresholds]). *)
Definition decide : ImageAnalysisResult :=
  if selfie_signal then
    result Invalid selfie
      ("The image attached is a selfie and not a valid "
       ++ id_type_phrase ++ " image.")
      "Detected a dominant face region without a clear card boundary."
      (Py.min2 0.99 (0.65 + largest_face_ratio m))
  else if Py.truthy_opt id_number && negb id_format_valid then
    result Invalid unknown
      id_format_detail
      ("Please verify the " ++ id_type_phrase
       ++ " number is entered correctly.")
      0.95
  else if name_mismatch then
    result Invalid unknown
      ("The name on the " ++ id_type_phrase
       ++ " does not match the applicant's name.")
      "The submitted ID may belong to a different person."
      (Py.min2 0.96 (Py.max2 0.75 (0.85 + mismatch_similarity * 0.1)))
  else if severe_blur then
    result Invalid unknown
      ("Image is too blurry to reliably verify the submitted "
       ++ id_type_phrase ++ ".")
      "Retake the photo with better focus and avoid motion blur."
      (Py.min2 0.95 (Py.max2 0.45 (1 - sharpness (quality m) / 110)))
  else if screenshot_like_signal then
    result Invalid unknown
      ("The uploaded image appears to be a screenshot or non-"
       ++ id_type_phrase ++ " content.")
      "Please upload a clear photo of the physical ID card, not a screen capture or chat image."
      (Py.min2 0.96 (Py.max2 0.60 (0.78 + text_density m)))
  else if low_text_presence && negb (has_document_shape m) then
    result Invalid unknown
      ("The image lacks readable printed details expected on a "
       ++ id_type_phrase ++ ".")
      "Capture a full card image with clearer text and visible card features."
      (Py.min2 0.92 (Py.max2 0.48 (0.75 - document_score)))
  else if has_document_shape m && Py.ge document_score 0.45 then
    result Valid identification_card
      ("Image features are consistent with a valid "
       ++ id_type_phrase ++ " card capture.")
      "Card boundary and printed details were detected successfully."
      (Py.min2 0.98 (Py.max2 0.55 document_score))
  else if has_card_portrait && Py.ge (text_density m) 0.020
          && Py.ge document_score 0.55 then
    result Valid identification_card
      ("Image features are consistent with a valid "
       ++ id_type_phrase ++ " card capture.")
      "Card boundary is partially visible; text and security details are sufficient."
      (Py.min2 0.95 (Py.max2 0.55 document_score))
  else if Py.ge (text_density m) 0.012
          && Py.ge (edge_density (quality m)) 0.035
          && negb selfie_signal && Py.ge document_score 0.40 then
    result Valid identification_card
      ("Image features are consistent with a valid "
       ++ id_type_phrase ++ " card capture.")
      "Printed details and card features detected (landscape orientation)."
      (Py.min2 0.92 (Py.max2 0.55 document_score))
  else
    result Invalid unknown
      ("The submitted " ++ id_type_phrase
       ++ " image failed document-quality checks.")
      "Please submit a clearer full-card photo with readable details."
      (Py.min2 0.92 (Py.max2 0.45 (0.70 - document_score))).

End Decision.

(* ------------------------------------------------------------------ *)
(** ** [analyze_id_image] *)

Section Analyze.

Context {Image : Type}.
Variable M : Modules Image.

(** Area of the largest detected face over the image area, 0 without
    a face. *)
Definition largest_face_ratio_of (cv : Cv2 Image) (gray : Image) : Q :=
  let '(height, width) := shape cv gray in
  let image_area := inject_Z (height * width) in
  Py.max_default 0%Q
    (map (fun '(_, _, w, h) => (inject_Z (w * h) / image_area)%Q)
         (detect_faces cv gray)).

(** The measurements taken on a downloaded image. *)
Definition measure (cv : Cv2 Image) (image : Image) : Measurements :=
  let gray := to_gray cv image in
  {| quality := _compute_quality_metrics M gray;
     text_density := _estimate_text_density M gray;
     largest_face_ratio := largest_face_ratio_of cv gray;
     has_document_shape := _detect_document_like_shape M gray |}.

(** [name_match_result]: OCR and name matching run only for a claimed
    name that is neither [None] nor empty. *)
Definition name_match_for (image : Image) (user_name : option string)
  : option (bool * Q * string) :=
  match user_name with
  | Some name =>
      if Py.truthy name then
        let ocr_text := _extract_text_from_image M image in
        Some (_match_name (Levenshtein M) ocr_text name)
      else None
  | None => None
  end.

Definition dependency_missing : string :=
  "Image analysis dependency is not available on the server.".

Definition analyze_id_image (image_url : string)
  (id_type user_name id_number : option string)
  : Outcome ImageAnalysisResult :=
  let normalized_id_type := _normalize_id_type id_type in
  match cv2 M with
  | None =>
      Returned {| status := Invalid; category := unknown;
                  message := dependency_missing;
                  reasons := [dependency_missing];
                  checks := []; confidence := 0%Q |}
  | Some cv =>
      match _download_image M image_url with
      | Raised => Raised
      | Returned image =>
          Returned (decide (measure cv image) normalized_id_type id_number
                           (name_match_for image user_name))
      end
  end.

End Analyze.

(* ------------------------------------------------------------------ *)
(** ** Concrete modules for the examples *)

Module Sample.

(** One more row of the table of common-subsequence lengths: [prev]
    is the row before from this column on, [left] the entry just
    written. *)
Fixpoint next_row (x : ascii) (b : string) (prev : list nat) (left : nat)
  : list nat :=
  match b, prev with
  | String y b', diagonal :: ((up :: _) as prev') =>
      let here := if Ascii.eqb x y then S diagonal else Nat.max up left in
      here :: next_row x b' prev' here
  | _, _ => []
  end.

Fixpoint last_row (a b : string) (prev : list nat) : list nat :=
  match a with
  | EmptyString => prev
  | String x a' => last_row a' b (0 :: next_row x b prev 0)
  end.

(** Length of a longest common subsequence. *)
Definition lcs (a b : string) : nat :=
  last (last_row a b (repeat 0 (S (String.length b)))) 0.

(** The normalized indel similarity, the ratio python-Levenshtein
    documents: twice the common subsequence over the total length,
    1 for two empty strings. *)
Definition indel_ratio (a b : string) : Q :=
  let total := String.length a + String.length b in
  if total =? 0 then 1%Q
  else (float_of_nat (2 * lcs a b) / float_of_nat total)%Q.

(** A picture is what the probes see in it. *)
Record Picture := {
  pic_quality : QualityMetrics;
  pic_text_density : Q;
  pic_quadrilateral : bool;
  pic_faces : list (Z * Z * Z * Z);
  pic_shape : Z * Z;
  (** The recognised text at 0, 90 clockwise, 90 counterclockwise
      and 180 degrees. *)
  pic_text : list string
}.

(** Turning a picture turns the order of its readings. *)
Definition turn (p : Picture) (code : RotateCode) : Picture :=
  let texts :=
    match code, pic_text p with
    | ROTATE_90_CLOCKWISE, [t0; t90; t270; t180] => [t90; t180; t0; t270]
    | ROTATE_90_COUNTERCLOCKWISE, [t0; t90; t270; t180] =>
        [t270; t0; t180; t90]
    | ROTATE_180, [t0; t90; t270; t180] => [t180; t270; t90; t0]
    | _, ts => ts
    end in
  {| pic_quality := pic_quality p; pic_text_density := pic_text_density p;
     pic_quadrilateral := pic_quadrilateral p; pic_faces := pic_faces p;
     pic_shape := pic_shape p; pic_text := texts |}.

Definition sample_cv2 (download : string -> option Picture) : Cv2 Picture :=
  {| fetch_decode := download;
     to_gray := fun p => p;
     rotate := turn;
     measure_quality := pic_quality;
     blackhat_fraction := pic_text_density;
     has_card_quadrilateral := pic_quadrilateral;
     detect_faces := pic_faces;
     shape := pic_shape |}.

(** Only the first pass reads something. *)
Definition sample_tesseract : Tesseract Picture :=
  {| three_passes := fun p => Some (hd "" (pic_text p), "", "") |}.

Definition picture (sharp text_dens : Q) (quad : bool)
  (faces : list (Z * Z * Z * Z)) (texts : list string) : Picture :=
  {| pic_quality := {| brightness := 120; contrast := 30;
                       sharpness := sharp; edge_density := 0.05 |};
     pic_text_density := text_dens;
     pic_quadrilateral := quad;
     pic_faces := faces;
     pic_shape := (1000, 1000)%Z;
     pic_text := texts |}.

(** Every URL serves the picture [p]. *)
Definition serving (p : Picture) : string -> option Picture :=
  fun _ => Some p.

(** All three modules imported. *)
Definition full (p : Picture) : Modules Picture :=
  {| cv2 := Some (sample_cv2 (serving p));
     pytesseract := Some sample_tesseract;
     Levenshtein := Some indel_ratio |}.

(** OpenCV failed to import. *)
Definition without_cv2 : Modules Picture :=
  {| cv2 := None; pytesseract := Some sample_tesseract;
     Levenshtein := Some indel_ratio |}.

(** python-Levenshtein failed to import. *)
Definition without_levenshtein (p : Picture) : Modules Picture :=
  {| cv2 := Some (sample_cv2 (serving p));
     pytesseract := Some sample_tesseract;
     Levenshtein := None |}.

(** A selfie: one face of 30% of the frame, no card, hardly any text. *)
Definition selfie_picture : Picture :=
  picture 80 0.005 false [(100, 100, 500, 600)%Z] ["";"";"";""].

(** A blurred card: sharpness 20, card boundary, text, a portrait. *)
Definition blurred_card : Picture :=
  picture 20 0.02 true [(50, 50, 250, 400)%Z] ["";"";"";""].

(** A sharp card with the given readings. *)
Definition card_with_text (texts : list string) : Picture :=
  picture 80 0.02 true [(50, 50, 250, 400)%Z] texts.

(** A sharp card issued to Maria Santos. *)
Definition santos_card : Picture :=
  card_with_text
    ["REPUBLIKA NG PILIPINAS PAMBANSANG PAGKAKAKILANLAN MARIA SANTOS";
     ""; ""; ""].

End Sample.

(* ------------------------------------------------------------------ *)
(** ** Notions the properties are stated with *)

(** The digit count the checker compares: the number of digit
    characters of the claimed number. *)
Definition digit_count (id_number : string) : nat :=
  Py.count_chars Py.is_digit id_number.

(** Whether the loop counts a claimed token as matched. *)
Definition token_matched (ratio : string -> string -> Q)
  (ocr_tokens : list string) (token : string) : bool :=
  match match_token ratio ocr_tokens token with
  | Some _ => true
  | None => false
  end.

(** The names of the checks of a result, in order. *)
Definition check_names (r : ImageAnalysisResult) : list string :=
  map ImageCheck.name (checks r).

Definition unconditional_check_names : list string :=
  [ "Card Boundary"; "Printed Details"; "Sharpness"; "Lighting";
    "Selfie Signal"; "Card Portrait"; "Screenshot Signal" ].

(** The check names announced for a call: the seven unconditional
    ones, then ID Number Format for a claimed number, then Name Match
    for a claimed name (claimed: given and not empty). *)
Definition announced_check_names (id_number user_name : option string)
  : list string :=
  (unconditional_check_names
   ++ (if Py.truthy_opt id_number then ["ID Number Format"] else [])
   ++ (if Py.truthy_opt user_name then ["Name Match"] else []))%list.

(** The ten rules of the decision, in priority order. *)
Inductive Branch :=
| selfie_branch
| id_format_branch
| name_mismatch_branch
| severe_blur_branch
| screenshot_branch
| low_text_branch
| valid_boundary_branch
| valid_portrait_branch
| valid_landscape_branch
| fallback_branch.

Definition cascade : list Branch :=
  [ selfie_branch; id_format_branch; name_mismatch_branch;
    severe_blur_branch; screenshot_branch; low_text_branch;
    valid_boundary_branch; valid_portrait_branch; valid_landscape_branch;
    fallback_branch ].


Section Rules.

Local Open Scope Q_scope.

Variable m : Measurements.
Variable normalized_id_type : string.
Variable id_number : option string.
Variable name_match_result : option (bool * Q * string).

(** The condition of each rule. *)
Definition condition (b : Branch) : bool :=
  match b with
  | selfie_branch => selfie_signal m
  | id_format_branch =>
      Py.truthy_opt id_number
      && negb (id_format_valid normalized_id_type id_number)
  | name_mismatch_branch => name_mismatch name_match_result
  | severe_blur_branch => severe_blur m
  | screenshot_branch => screenshot_like_signal m
  | low_text_branch => low_text_presence m && negb (has_document_shape m)
  | valid_boundary_branch =>
      has_document_shape m && Py.ge (document_score m) 0.45
  | valid_portrait_branch =>
      has_card_portrait m && Py.ge (text_density m) 0.020
      && Py.ge (document_score m) 0.55
  | valid_landscape_branch =>
      Py.ge (text_density m) 0.012
      && Py.ge (edge_density (quality m)) 0.035
      && negb (selfie_signal m) && Py.ge (document_score m) 0.40
  | fallback_branch => true
  end.

(** The first rule of the cascade whose condition holds. *)
Definition first_match : Branch :=
  match find condition cascade with
  | Some b => b
  | None => fallback_branch
  end.

Definition phrase : string := id_type_phrase normalized_id_type.

Definition branch_result := result m normalized_id_type id_number
                                   name_match_result.

(** The outcome of each rule. *)
Definition outcome (b : Branch) : ImageAnalysisResult :=
  match b with
  | selfie_branch =>
      branch_result Invalid selfie
        ("The image attached is a selfie and not a valid "
         ++ phrase ++ " image.")
        "Detected a dominant face region without a clear card boundary."
        (Py.min2 0.99 (0.65 + largest_face_ratio m))
  | id_format_branch =>
      branch_result Invalid unknown
        (id_format_detail normalized_id_type id_number)
        ("Please verify the " ++ phrase ++ " number is entered correctly.")
        0.95
  | name_mismatch_branch =>
      branch_result Invalid unknown
        ("The name on the " ++ phrase
         ++ " does not match the applicant's name.")
        "The submitted ID may belong to a different person."
        (Py.min2 0.96
           (Py.max2 0.75
              (0.85 + mismatch_similarity name_match_result * 0.1)))
  | severe_blur_branch =>
      branch_result Invalid unknown
        ("Image is too blurry to reliably verify the submitted "
         ++ phrase ++ ".")
        "Retake the photo with better focus and avoid motion blur."
        (Py.min2 0.95 (Py.max2 0.45 (1 - sharpness (quality m) / 110)))
  | screenshot_branch =>
      branch_result Invalid unknown
        ("The uploaded image appears to be a screenshot or non-"
         ++ phrase ++ " content.")
        "Please upload a clear photo of the physical ID card, not a screen capture or chat image."
        (Py.min2 0.96 (Py.max2 0.60 (0.78 + text_density m)))
  | low_text_branch =>
      branch_result Invalid unknown
        ("The image lacks readable printed details expected on a "
         ++ phrase ++ ".")
        "Capture a full card image with clearer text and visible card features."
        (Py.min2 0.92 (Py.max2 0.48 (0.75 - document_score m)))
  | valid_boundary_branch =>
      branch_result Valid identification_card
        ("Image features are consistent with a valid "
         ++ phrase ++ " card capture.")
        "Card boundary and printed details were detected successfully."
        (Py.min2 0.98 (Py.max2 0.55 (document_score m)))
  | valid_portrait_branch =>
      branch_result Valid identification_card
        ("Image features are consistent with a valid "
         ++ phrase ++ " card capture.")
        "Card boundary is partially visible; text and security details are sufficient."
        (Py.min2 0.95 (Py.max2 0.55 (document_score m)))
  | valid_landscape_branch =>
      branch_result Valid identification_card
        ("Image features are consistent with a valid "
         ++ phrase ++ " card capture.")
        "Printed details and card features detected (landscape orientation)."
        (Py.min2 0.92 (Py.max2 0.55 (document_score m)))
  | fallback_branch =>
      branch_result Invalid unknown
        ("The submitted " ++ phrase
         ++ " image failed document-quality checks.")
        "Please submit a clearer full-card photo with readable details."
        (Py.min2 0.92 (Py.max2 0.45 (0.70 - document_score m)))
  end.

End Rules.


Section Orientations.

Context {Image : Type}.
Variable M : Modules Image.
Variable cv : Cv2 Image.
Variable image : Image.

(** The candidate texts of the four orientations, in the order the
    search tries them: 0, 90, 270 and 180 degrees. *)
Definition candidates : list string :=
  [ _ocr_attempt M image;
    _ocr_attempt M (rotate cv image ROTATE_90_CLOCKWISE);
    _ocr_attempt M (rotate cv image ROTATE_90_COUNTERCLOCKWISE);
    _ocr_attempt M (rotate cv image ROTATE_180) ].

End Orientations.

(** The score of the [i]-th text. *)
Definition score_at (texts : list string) (i : nat) : Q :=
  _text_quality_score (nth i texts "").

(** The [i]-th text scores best, and no earlier text scores as well. *)
Definition earliest_best (texts : list string) (i : nat) : Prop :=
  i < List.length texts
  /\ (forall j, j < List.length texts ->
                (score_at texts j <= score_at texts i)%Q)
  /\ (forall j, j < i -> (score_at texts j < score_at texts i)%Q).

Section NameDecision.

Variable ratio : string -> string -> Q.
Variables ocr_text user_name : string.

(** A line of the OCR text whose normalized length is at least 40% of
    the normalized length of the claimed name. *)
Definition long_enough (line : string) : Prop :=
  (float_of_nat (String.length (_normalize_name user_name)) * 0.4
   <= float_of_nat (String.length (_normalize_name line)))%Q.

(** The similarity of a line to the claimed name, both normalized. *)
Definition line_similarity (line : string) : Q :=
  ratio (_normalize_name user_name) (_normalize_name line).

(** [s] is the largest similarity over the long enough lines, and 0
    when there is no such line or none is similar at all. *)
Definition largest_line_similarity (s : Q) : Prop :=
  (0 <= s)%Q
  /\ (forall line,
        In line (Py.split_on Py.LF ocr_text) -> long_enough line ->
        (line_similarity line <= s)%Q)
  /\ (s = 0%Q
      \/ exists line,
           In line (Py.split_on Py.LF ocr_text) /\ long_enough line
           /\ s = line_similarity line).

(** The decision of the matcher as the two thresholds state it. *)
Definition decided_by_thresholds : Prop :=
  let '(is_match, confidence, _) :=
    _match_name (Some ratio) ocr_text user_name in
  let match_ratio := match_ratio_of ratio ocr_text user_name in
  let max_similarity := max_similarity_of ratio ocr_text user_name in
  (is_match = true <-> (0.60 <= match_ratio \/ 0.65 <= max_similarity)%Q)
  /\ (confidence == Qmax match_ratio max_similarity)%Q.

End NameDecision.

(* ------------------------------------------------------------------ *)
(** ** The endpoint of the image analysis (app/main.py, app/schemas.py) *)

Module Schemas.

(** [ImageValidationRequest], as the endpoint receives it once the
    framework has validated it: the ID type is always present (its
    default is "Others"). *)
Record ImageValidationRequest := {
  image_url : string;
  id_type : string;
  user_name : option string
}.

Record ImageAnalysisCheck := {
  name : string;
  status : CheckStatus;
  detail : string
}.

Record ImageValidationResponse := {
  response_status : Status;
  response_category : Category;
  response_message : string;
  response_reasons : list string;
  response_checks : list ImageAnalysisCheck;
  response_confidence : Q
}.

(** Construction of an [ImageValidationResponse]: the field
    [confidence] is declared with [ge=0.0] and [le=1.0], and a value
    outside raises a validation error. *)
Definition make_response (st : Status) (cat : Category) (msg : string)
  (rs : list string) (cs : list ImageAnalysisCheck) (conf : Q)
  : Outcome ImageValidationResponse :=
  if Py.ge conf 0%Q && Py.le conf 1%Q then
    Returned {| response_status := st; response_category := cat;
                response_message := msg; response_reasons := rs;
                response_checks := cs; response_confidence := conf |}
  else Raised.

End Schemas.

Definition fallback_message : string :=
  "Unable to analyze the attached image. Please verify the image URL and try again.".

(** The response of the [except] clause of the endpoint. *)
Definition fallback_response : Schemas.ImageValidationResponse :=
  {| Schemas.response_status := Invalid;
     Schemas.response_category := unknown;
     Schemas.response_message := fallback_message;
     Schemas.response_reasons := [fallback_message];
     Schemas.response_checks :=
       [ {| Schemas.name := "Image Fetch"; Schemas.status := fail;
            Schemas.detail :=
              "Unable to fetch or decode the uploaded image URL." |} ];
     Schemas.response_confidence := 0%Q |}.

Definition response_check (check : ImageCheck.t) : Schemas.ImageAnalysisCheck :=
  {| Schemas.name := ImageCheck.name check;
     Schemas.status := ImageCheck.status check;
     Schemas.detail := ImageCheck.detail check |}.

(** [analyze_id_image_endpoint]: the analysis is called with the URL,
    the ID type and the user name only; whatever is raised, by the
    analysis or by the construction of the response, is answered with
    the fallback response. *)
Definition analyze_id_image_endpoint {Image : Type} (M : Modules Image)
  (payload : Schemas.ImageValidationRequest)
  : Schemas.ImageValidationResponse :=
  match analyze_id_image M (Schemas.image_url payload)
                         (Some (Schemas.id_type payload))
                         (Schemas.user_name payload) None with
  | Returned result =>
      match Schemas.make_response
              (status result) (category result) (message result)
              (reasons result) (map response_check (checks result))
              (confidence result) with
      | Returned response => response
      | Raised => fallback_response
      end
  | Raised => fallback_response
  end.

(* ------------------------------------------------------------------ *)
(** ** Further notions the properties are stated with *)

(** Every character of [s] satisfies [f]. *)
Fixpoint all_chars (f : ascii -> bool) (s : string) : bool :=
  match s with
  | EmptyString => true
  | String c s' => f c && all_chars f s'
  end.

(** The lowercase letters [a-z]. *)
Definition is_lower_letter (c : ascii) : bool :=
  let n := nat_of_ascii c in (97 <=? n) && (n <=? 122).

(** What a normalized name is made of. *)
Definition lower_or_space (c : ascii) : bool :=
  is_lower_letter c || Py.is_space c.

(** The first character, if any. *)
Definition first_char (s : string) : option ascii :=
  match s with EmptyString => None | String c _ => Some c end.

(** The last character, if any. *)
Fixpoint last_char (s : string) : option ascii :=
  match s with
  | EmptyString => None
  | String c EmptyString => Some c
  | String _ s' => last_char s'
  end.

(** [s] neither starts nor ends with whitespace. *)
Definition stripped (s : string) : Prop :=
  (forall c, first_char s = Some c -> Py.is_space c = false)
  /\ (forall c, last_char s = Some c -> Py.is_space c = false).

(** The checks of a result whose status is [fail], by name. *)
Definition failed_check_names (r : ImageAnalysisResult) : list string :=
  map ImageCheck.name
      (filter (fun c => match ImageCheck.status c with
                        | fail => true
                        | _ => false
                        end) (checks r)).

(** The detail of an inconclusive name verification. *)
Definition ocr_unavailable : string :=
  "Name verification unavailable (OCR extraction failed — manual review required).".

(** The similarity that only tells equal strings from different ones. *)
Definition equality_ratio (a b : string) : Q :=
  if String.eqb a b then 1%Q else 0%Q.

(** The area of each detected face over the area of the image. *)
Definition face_area_ratios {Image : Type} (cv : Cv2 Image) (gray : Image)
  : list Q :=
  map (fun '(_, _, w, h) =>
         (inject_Z (w * h)
          / inject_Z (fst (shape cv gray) * snd (shape cv gray)))%Q)
      (detect_faces cv gray).

(** The tokens of at least three characters, which the quality score
    counts. *)
Definition scored_words (text : string) : list string :=
  filter (fun w => 3 <=? String.length w) (Py.split text).

(** The document score as a function of the thirteen tests it reads. *)
Definition score_of_flags
  (shape td012 td008 sharp60 sharp40 contrast25 edge03
   portrait selfie screenshot severe soft lighting : bool) : Q :=
  let s := Binary64.literal 0.0%Q in
  let s := if shape then Binary64.add s (Binary64.literal 0.25) else s in
  let s := if td012 then Binary64.add s (Binary64.literal 0.30)
           else if td008 then Binary64.add s (Binary64.literal 0.15) else s in
  let s := if sharp60 then Binary64.add s (Binary64.literal 0.20)
           else if sharp40 then Binary64.add s (Binary64.literal 0.10)
                else s in
  let s := if contrast25 then Binary64.add s (Binary64.literal 0.10)
           else s in
  let s := if edge03 then Binary64.add s (Binary64.literal 0.10) else s in
  let s := if portrait then Binary64.add s (Binary64.literal 0.15) else s in
  let s := if selfie then Binary64.sub s (Binary64.literal 0.10) else s in
  let s := if screenshot then Binary64.sub s (Binary64.literal 0.25)
           else s in
  let s := if severe then Binary64.sub s (Binary64.literal 0.20)
           else if soft then Binary64.sub s (Binary64.literal 0.08) else s in
  let s := if lighting then Binary64.sub s (Binary64.literal 0.08) else s in
  Py.max2 0%Q (Py.min2 1%Q s).

(** A score compares with the thresholds 0.45, 0.55 and 0.40 as it
    does with their binary64 literals. *)
Definition thresholds_agree (s : Q) : bool :=
  Bool.eqb (Py.ge s 0.45%Q) (Py.ge s (Binary64.literal 0.45))
  && Bool.eqb (Py.ge s 0.55%Q) (Py.ge s (Binary64.literal 0.55))
  && Bool.eqb (Py.ge s 0.40%Q) (Py.ge s (Binary64.literal 0.40)).

(** [P] holds of both truth values. *)
Definition forall_bool (P : bool -> bool) : bool := P true && P false.

(** A similarity function with values between 0 and 1. *)
Definition ratio_in_unit_interval (ratio : string -> string -> Q) : Prop :=
  forall a b, (0 <= ratio a b <= 1)%Q.

(* ================================================================== *)
(** * Properties *)

(* ------------------------------------------------------------------ *)
(** ** Strings *)

Lemma keep_length_count (f : ascii -> bool) (s : string) :
  String.length (Py.keep f s) = Py.count_chars f s.
Proof.
  induction s as [|c s IH]; simpl; [reflexivity|].
  destruct (f c); simpl; now rewrite IH.
Qed.

Lemma truthy_false_iff (s : string) : Py.truthy s = false <-> s = "".
Proof. destruct s; simpl; split; congruence. Qed.

Lemma truthy_true_iff (s : string) : Py.truthy s = true <-> s <> "".
Proof. destruct s; simpl; split; congruence. Qed.

(* ------------------------------------------------------------------ *)
(** ** The identity-number format checker *)

Example validate_sss_dashed :
  _validate_id_number_format (Some "34-1234567-8") "SSS"
  = (true, "SSS number has correct 10-digit format.").
Proof. reflexivity. Qed.

Example normalize_id_type_alias :
  _normalize_id_type (Some "  National ID (PhilSys) ") = "National ID".
Proof. reflexivity. Qed.

(** C4. For an ID type with a configured digit requirement and a
    non-empty claimed number, the format is valid exactly when the
    number of digit characters equals the requirement, and otherwise
    the detail names the expected and the found count; "1234" against
    the 16-digit National ID fails citing 16 and 4; a missing or empty
    number passes, and so does a type without requirement. *)
Theorem validate_id_number_format_digit_count :
  (forall (id_type number : string) (expected : nat),
     dict_get ID_DIGIT_REQUIREMENTS id_type = Some expected ->
     number <> "" ->
     (fst (_validate_id_number_format (Some number) id_type)
      = (digit_count number =? expected))
     /\ (digit_count number <> expected ->
         _validate_id_number_format (Some number) id_type
         = (false,
            id_type ++ " number must have exactly "
            ++ Py.str_of_nat expected ++ " digits (found "
            ++ Py.str_of_nat (digit_count number)
            ++ " digits in '" ++ number ++ "').")))
  /\ _validate_id_number_format (Some "1234") "National ID"
     = (false,
        "National ID number must have exactly 16 digits (found 4 digits in '1234').")
  /\ (forall ty, fst (_validate_id_number_format None ty) = true
                 /\ fst (_validate_id_number_format (Some "") ty) = true)
  /\ (forall ty num,
        dict_get ID_DIGIT_REQUIREMENTS ty = None ->
        fst (_validate_id_number_format (Some num) ty) = true).
Proof.
  split; [|split; [|split]].
  - intros id_type number expected Hreq Hne.
    apply truthy_true_iff in Hne.
    unfold _validate_id_number_format, digit_count, digits_only.
    rewrite Hne, Hreq, keep_length_count. cbn [negb].
    split.
    + destruct (Py.count_chars Py.is_digit number =? expected); reflexivity.
    + intros Hd. apply Nat.eqb_neq in Hd. now rewrite Hd.
  - reflexivity.
  - intros ty. split; reflexivity.
  - intros ty num Hnone. unfold _validate_id_number_format.
    rewrite Hnone. destruct (negb (Py.truthy num)); reflexivity.
Qed.

Lemma validate_id_number_format_digit_count_witness :
  fst (_validate_id_number_format (Some "1234-5678") "National ID") = false
  /\ _validate_id_number_format (Some "1234-5678") "National ID"
     = (false,
        "National ID number must have exactly 16 digits (found 8 digits in '1234-5678').")
  /\ fst (_validate_id_number_format (Some "AB123") "Postal ID") = true.
Proof.
  destruct validate_id_number_format_digit_count
    as (Hcount & _ & _ & Hnone).
  destruct (Hcount "National ID" "1234-5678" 16 eq_refl)
    as (Hvalid & Hdetail).
  - discriminate.
  - split; [exact Hvalid|split].
    + apply Hdetail. vm_compute. discriminate.
    + apply Hnone. reflexivity.
Defined.

(** C5. The table does carry an entry for Passport (9 digits), so a
    passport number is digit-counted: P1234567A, with seven digits, is
    rejected. *)
Theorem passport_number_is_digit_counted :
  dict_get ID_DIGIT_REQUIREMENTS "Passport" = Some 9
  /\ _validate_id_number_format (Some "P1234567A") "Passport"
     = (false,
        "Passport number must have exactly 9 digits (found 7 digits in 'P1234567A').").
Proof. split; reflexivity. Qed.

(* ------------------------------------------------------------------ *)
(** ** Tokens of a normalized name *)

Lemma append_empty_r (s : string) : s ++ "" = s.
Proof. induction s as [|c s IH]; simpl; congruence. Qed.

Lemma keep_append (f : ascii -> bool) (a b : string) :
  Py.keep f (a ++ b) = Py.keep f a ++ Py.keep f b.
Proof.
  induction a as [|c a IH]; simpl; [reflexivity|].
  destruct (f c); simpl; now rewrite IH.
Qed.

Lemma map_chars_append (f : ascii -> ascii) (a b : string) :
  Py.map_chars f (a ++ b) = Py.map_chars f a ++ Py.map_chars f b.
Proof. induction a as [|c a IH]; simpl; [reflexivity|now rewrite IH]. Qed.

Lemma is_space_lower_char (c : ascii) :
  Py.is_space (Py.lower_char c) = Py.is_space c.
Proof. destruct c as [[] [] [] [] [] [] [] []]; vm_compute; reflexivity. Qed.

Lemma letter_is_not_space (c : ascii) :
  Py.is_ascii_letter c = true -> Py.is_space c = false.
Proof.
  destruct c as [[] [] [] [] [] [] [] []]; vm_compute; congruence.
Qed.

Lemma split_from_lstrip (s : string) :
  Py.split_from "" (Py.lstrip s) = Py.split_from "" s.
Proof.
  induction s as [|c s IH]; simpl; [reflexivity|].
  destruct (Py.is_space c) eqn:Hc; simpl; [exact IH|now rewrite Hc].
Qed.

Lemma split_from_rstrip (s cur : string) :
  Py.split_from cur (Py.rstrip s) = Py.split_from cur s.
Proof.
  revert cur. induction s as [|c s IH]; intros cur; simpl; [reflexivity|].
  destruct (Py.rstrip s) as [|d r] eqn:Hr.
  - destruct (Py.is_space c) eqn:Hc; simpl.
    + rewrite <- (IH ""). simpl. now rewrite app_nil_r.
    + rewrite Hc. now rewrite <- IH.
  - simpl. destruct (Py.is_space c); now rewrite <- !IH.
Qed.

Lemma split_strip (s : string) : Py.split (Py.strip s) = Py.split s.
Proof.
  unfold Py.split, Py.strip.
  now rewrite split_from_rstrip, split_from_lstrip.
Qed.

Lemma emit_map_chars (f : ascii -> ascii) (cur : string) :
  Py.emit (Py.map_chars f cur) = map (Py.map_chars f) (Py.emit cur).
Proof. destruct cur; reflexivity. Qed.

Lemma split_from_lower (s cur : string) :
  Py.split_from (Py.lower cur) (Py.lower s)
  = map Py.lower (Py.split_from cur s).
Proof.
  unfold Py.lower. revert cur.
  induction s as [|c s IH]; intros cur; simpl.
  - apply emit_map_chars.
  - rewrite is_space_lower_char. destruct (Py.is_space c).
    + rewrite map_app, <- emit_map_chars. f_equal. apply (IH "").
    + rewrite <- IH, map_chars_append. reflexivity.
Qed.

Lemma emit_keep_letters (cur : string) :
  Py.emit (Py.keep Py.is_ascii_letter cur)
  = filter Py.truthy (map (Py.keep Py.is_ascii_letter) (Py.emit cur)).
Proof.
  destruct cur as [|c cur]; [reflexivity|].
  unfold Py.emit at 2. cbn [Py.truthy map filter].
  unfold Py.emit. destruct (Py.truthy _); reflexivity.
Qed.

Lemma split_from_keep (s cur : string) :
  Py.split_from (Py.keep Py.is_ascii_letter cur) (Py.keep letter_or_space s)
  = filter Py.truthy
      (map (Py.keep Py.is_ascii_letter) (Py.split_from cur s)).
Proof.
  revert cur. induction s as [|c s IH]; intros cur; simpl.
  - apply emit_keep_letters.
  - unfold letter_or_space at 1.
    destruct (Py.is_space c) eqn:Hs.
    + rewrite orb_true_r. simpl. rewrite Hs.
      rewrite map_app, filter_app, <- emit_keep_letters.
      f_equal. apply (IH "").
    + rewrite orb_false_r.
      destruct (Py.is_ascii_letter c) eqn:Hl; simpl.
      * rewrite Hs, <- IH, keep_append. simpl. now rewrite Hl.
      * rewrite <- IH, keep_append. simpl. rewrite Hl.
        now rewrite append_empty_r.
Qed.

(** The claimed tokens are the whitespace-delimited tokens of the
    name, each reduced to its letters and lowercased, the empty ones
    dropped. *)
Lemma user_tokens_of_split (name : string) :
  user_tokens_of name
  = map Py.lower
      (filter Py.truthy (map (Py.keep Py.is_ascii_letter) (Py.split name))).
Proof.
  unfold user_tokens_of, _normalize_name.
  rewrite split_strip. unfold Py.split.
  change "" with (Py.lower "") at 1.
  rewrite split_from_lower. f_equal.
  apply (split_from_keep name "").
Qed.

Lemma Permutation_filter_same {A} (f : A -> bool) (l l' : list A) :
  Permutation l l' -> Permutation (filter f l) (filter f l').
Proof.
  induction 1 as [|x l l' _ IH|x y l|l l' l'' _ IH1 _ IH2]; simpl.
  - constructor.
  - destruct (f x); [now constructor|exact IH].
  - destruct (f x), (f y); try apply Permutation_refl. constructor.
  - now transitivity (filter f l').
Qed.

Lemma user_tokens_permutation (name1 name2 : string) :
  Permutation (Py.split name1) (Py.split name2) ->
  Permutation (user_tokens_of name1) (user_tokens_of name2).
Proof.
  intros H. rewrite !user_tokens_of_split.
  now apply Permutation_map, Permutation_filter_same, Permutation_map.
Qed.

(* ------------------------------------------------------------------ *)
(** ** The loop over the claimed tokens *)

Lemma token_step_matched ratio ocr_tokens m u token :
  token_matched ratio ocr_tokens token = true ->
  exists kind,
    token_step ratio ocr_tokens (m, u) token
    = ((m ++ [(token, kind)])%list, u).
Proof.
  unfold token_matched, token_step.
  destruct (match_token ratio ocr_tokens token) as [kind|];
    [eauto|discriminate].
Qed.

Lemma token_step_unmatched ratio ocr_tokens m u token :
  token_matched ratio ocr_tokens token = false ->
  token_step ratio ocr_tokens (m, u) token = (m, (u ++ [token])%list).
Proof.
  unfold token_matched, token_step.
  destruct (match_token ratio ocr_tokens token); [discriminate|reflexivity].
Qed.

(** Invariant of the loop: the matched list holds the matched tokens
    in order, the unmatched list the others. *)
Lemma match_tokens_loop ratio ocr_tokens user_tokens :
  forall m u,
    let '(m', u') :=
      fold_left (token_step ratio ocr_tokens) user_tokens (m, u) in
    map fst m'
    = (map fst m ++ filter (token_matched ratio ocr_tokens) user_tokens)%list
    /\ u' = (u ++ filter (fun t => negb (token_matched ratio ocr_tokens t))
                         user_tokens)%list.
Proof.
  induction user_tokens as [|token rest IH]; intros m u;
    cbn [fold_left filter].
  - now rewrite !app_nil_r.
  - destruct (token_matched ratio ocr_tokens token) eqn:Hm; cbn [negb].
    + destruct (token_step_matched ratio ocr_tokens m u token Hm)
        as [kind ->].
      specialize (IH (m ++ [(token, kind)])%list u).
      destruct (fold_left _ rest _) as [m' u'].
      destruct IH as [-> ->]. split; [|reflexivity].
      rewrite map_app. simpl. now rewrite <- app_assoc.
    + rewrite (token_step_unmatched ratio ocr_tokens m u token Hm).
      specialize (IH m (u ++ [token])%list).
      destruct (fold_left _ rest _) as [m' u'].
      destruct IH as [-> ->]. split; [reflexivity|].
      now rewrite <- app_assoc.
Qed.

Lemma match_tokens_matched ratio ocr_tokens user_tokens :
  map fst (fst (match_tokens ratio ocr_tokens user_tokens))
  = filter (token_matched ratio ocr_tokens) user_tokens.
Proof.
  unfold match_tokens.
  pose proof (match_tokens_loop ratio ocr_tokens user_tokens [] []) as H.
  destruct (fold_left _ user_tokens _) as [m' u']. now destruct H.
Qed.

Lemma match_tokens_unmatched ratio ocr_tokens user_tokens :
  snd (match_tokens ratio ocr_tokens user_tokens)
  = filter (fun t => negb (token_matched ratio ocr_tokens t)) user_tokens.
Proof.
  unfold match_tokens.
  pose proof (match_tokens_loop ratio ocr_tokens user_tokens [] []) as H.
  destruct (fold_left _ user_tokens _) as [m' u']. now destruct H.
Qed.

Lemma matched_count ratio ocr_tokens user_tokens :
  List.length (fst (match_tokens ratio ocr_tokens user_tokens))
  = List.length (filter (token_matched ratio ocr_tokens) user_tokens).
Proof.
  rewrite <- match_tokens_matched. now rewrite length_map.
Qed.

(** [match_ratio] is the matched fraction of the claimed tokens. *)
Lemma match_ratio_of_count ratio ocr_text user_name :
  match_ratio_of ratio ocr_text user_name
  = match user_tokens_of user_name with
    | [] => 0%Q
    | _ =>
        (float_of_nat
           (List.length (filter (token_matched ratio (ocr_tokens_of ocr_text))
                                (user_tokens_of user_name)))
         / float_of_nat (List.length (user_tokens_of user_name)))%Q
    end.
Proof.
  unfold match_ratio_of. rewrite matched_count. reflexivity.
Qed.

(** C8. Permuting the whitespace-delimited tokens of the claimed name
    leaves [match_ratio] unchanged; "Juan Dela Cruz" against
    "CRUZ, DELA JUAN" matches its three tokens exactly, with
    [match_ratio] 1 and a positive decision. *)
Theorem match_ratio_token_order_independent :
  forall ratio : string -> string -> Q,
    (forall ocr_text name1 name2 : string,
       Permutation (Py.split name1) (Py.split name2) ->
       match_ratio_of ratio ocr_text name1
       = match_ratio_of ratio ocr_text name2)
    /\ fst (match_tokens ratio (ocr_tokens_of "CRUZ, DELA JUAN")
                         (user_tokens_of "Juan Dela Cruz"))
       = [("juan", exact); ("dela", exact); ("cruz", exact)]
    /\ (match_ratio_of ratio "CRUZ, DELA JUAN" "Juan Dela Cruz" == 1)%Q
    /\ fst (fst (_match_name (Some ratio) "CRUZ, DELA JUAN" "Juan Dela Cruz"))
       = true.
Proof.
  intros ratio.
  split; [|split; [|split]]; [|vm_compute; reflexivity ..].
  intros ocr_text name1 name2 Hperm.
  apply user_tokens_permutation in Hperm.
  rewrite !match_ratio_of_count.
  pose proof (Permutation_length Hperm) as Hlen.
  pose proof (Permutation_length
                (Permutation_filter_same
                   (token_matched ratio (ocr_tokens_of ocr_text)) _ _ Hperm))
    as Hcount.
  rewrite Hcount, Hlen.
  destruct (user_tokens_of name1) as [|t1 l1], (user_tokens_of name2);
    try reflexivity; discriminate.
Qed.

Lemma match_ratio_token_order_independent_witness :
  match_ratio_of Sample.indel_ratio "REPUBLIKA NG PILIPINAS JUAN DELA KRUZ"
                 "Juan Dela Cruz"
  = match_ratio_of Sample.indel_ratio "REPUBLIKA NG PILIPINAS JUAN DELA KRUZ"
                   "Cruz   Juan Dela".
Proof.
  refine (proj1 (match_ratio_token_order_independent Sample.indel_ratio)
                _ "Juan Dela Cruz" "Cruz   Juan Dela" _).
  change (Permutation (["Juan"; "Dela"] ++ ["Cruz"])%list
                      (["Cruz"] ++ ["Juan"; "Dela"])%list).
  apply Permutation_app_comm.
Defined.

Example match_ratio_partial :
  (match_ratio_of Sample.indel_ratio "REPUBLIKA NG PILIPINAS JUAN DELA KRUZ"
                  "Juan Dela Cruz" == 2 # 3)%Q.
Proof. vm_compute. reflexivity. Qed.

(* ------------------------------------------------------------------ *)
(** ** Tokens of two letters *)

Lemma mem_In (x : string) (xs : list string) :
  Py.mem x xs = true <-> In x xs.
Proof.
  unfold Py.mem. rewrite existsb_exists. split.
  - intros (y & Hy & Heq). apply String.eqb_eq in Heq. now subst.
  - intros H. exists x. split; [exact H|apply String.eqb_refl].
Qed.

(** C10. A claimed token of exactly two letters is counted as matched
    exactly when it is a member of the OCR token set: the initial
    match is recorded only for tokens of length 1, the prefix and the
    fuzzy match only for tokens of length at least 3, and in the loop
    a two-letter token outside the OCR set ends among the unmatched
    tokens and not among the matched ones. *)
Theorem two_letter_token_needs_exact_match :
  forall (ratio : string -> string -> Q) (ocr_tokens : list string)
         (token : string),
    (String.length token = 2 ->
     (token_matched ratio ocr_tokens token = true <-> In token ocr_tokens)
     /\ (~ In token ocr_tokens ->
         forall user_tokens,
           In token user_tokens ->
           In token (snd (match_tokens ratio ocr_tokens user_tokens))
           /\ ~ In token
                (map fst (fst (match_tokens ratio ocr_tokens user_tokens)))))
    /\ (match_token ratio ocr_tokens token = Some initial ->
        String.length token = 1)
    /\ (forall kind,
          match_token ratio ocr_tokens token = Some kind ->
          kind = prefix \/ (exists best, kind = fuzzy best) ->
          3 <= String.length token).
Proof.
  intros ratio ocr_tokens token.
  assert (Hexact : String.length token = 2 ->
                   (token_matched ratio ocr_tokens token = true
                    <-> In token ocr_tokens)).
  { intros Hlen. unfold token_matched, match_token. rewrite Hlen.
    cbn [Nat.eqb Nat.leb]. rewrite <- mem_In.
    destruct (Py.mem token ocr_tokens); split; congruence. }
  split; [|split].
  - intros Hlen. split; [now apply Hexact|].
    intros Hout user_tokens Huser.
    assert (Hno : token_matched ratio ocr_tokens token = false).
    { destruct (token_matched ratio ocr_tokens token) eqn:E;
        [|reflexivity].
      exfalso. apply Hout. now apply Hexact. }
    rewrite match_tokens_unmatched, match_tokens_matched, !filter_In.
    rewrite Hno. split; [now split|]. intros [_ H]. discriminate.
  - unfold match_token.
    destruct (Py.mem token ocr_tokens); [discriminate|].
    destruct (String.length token =? 1) eqn:E1.
    + intros _. now apply Nat.eqb_eq.
    + destruct (3 <=? String.length token); [|discriminate].
      destruct (any_startswith ocr_tokens token); [discriminate|].
      destruct (Py.ge _ _); discriminate.
  - intros kind Hk Hkind. unfold match_token in Hk.
    destruct (Py.mem token ocr_tokens).
    { destruct Hkind as [->|[best ->]]; discriminate. }
    destruct (String.length token =? 1).
    { destruct (any_startswith ocr_tokens token);
        destruct Hkind as [->|[best ->]]; discriminate. }
    destruct (3 <=? String.length token) eqn:E3; [|discriminate].
    now apply Nat.leb_le.
Qed.

Lemma two_letter_token_needs_exact_match_witness :
  In "li" (snd (match_tokens Sample.indel_ratio ["lim"; "lj"; "john"]
                             ["john"; "li"]))
  /\ token_matched Sample.indel_ratio ["lim"; "li"] "li" = true.
Proof.
  destruct (two_letter_token_needs_exact_match
              Sample.indel_ratio ["lim"; "lj"; "john"] "li")
    as (Htwo & _).
  destruct (Htwo eq_refl) as (_ & Hloop).
  split.
  - apply Hloop.
    + intros [H|[H|[H|[]]]]; discriminate.
    + right. left. reflexivity.
  - apply (proj1 (two_letter_token_needs_exact_match
                    Sample.indel_ratio ["lim"; "li"] "li") eq_refl).
    right. left. reflexivity.
Defined.

Example three_letter_token_prefix :
  match_token Sample.indel_ratio ["lima"; "john"] "lim" = Some prefix.
Proof. reflexivity. Qed.

(* ------------------------------------------------------------------ *)
(** ** Comparisons on floats *)

Lemma ge_true_iff (a b : Q) : Py.ge a b = true <-> (b <= a)%Q.
Proof. apply Qle_bool_iff. Qed.

Lemma ge_false_iff (a b : Q) : Py.ge a b = false <-> (a < b)%Q.
Proof.
  unfold Py.ge. rewrite <- not_true_iff_false, Qle_bool_iff.
  split; [apply Qnot_le_lt|apply Qlt_not_le].
Qed.

Lemma lt_true_iff (a b : Q) : Py.lt a b = true <-> (a < b)%Q.
Proof. unfold Py.lt. rewrite negb_true_iff. apply ge_false_iff. Qed.

Lemma lt_false_iff (a b : Q) : Py.lt a b = false <-> (b <= a)%Q.
Proof. unfold Py.lt. rewrite negb_false_iff. apply ge_true_iff. Qed.

Lemma gt_true_iff (a b : Q) : Py.gt a b = true <-> (b < a)%Q.
Proof. unfold Py.gt. rewrite negb_true_iff. apply (ge_false_iff b a). Qed.

Lemma gt_false_iff (a b : Q) : Py.gt a b = false <-> (a <= b)%Q.
Proof. unfold Py.gt. rewrite negb_false_iff. apply (ge_true_iff b a). Qed.

Lemma max2_Qmax (a b : Q) : (Py.max2 a b == Qmax a b)%Q.
Proof.
  unfold Py.max2. destruct (Qle_bool b a) eqn:E.
  - apply Qle_bool_iff in E. symmetry. now apply Q.max_l.
  - apply (ge_false_iff a b) in E. symmetry.
    apply Q.max_r. now apply Qlt_le_weak.
Qed.


Lemma max2_cases (a b : Q) :
  (Py.max2 a b = a /\ (b <= a)%Q) \/ (Py.max2 a b = b /\ (a < b)%Q).
Proof.
  unfold Py.max2. destruct (Qle_bool b a) eqn:E.
  - left. split; [reflexivity|now apply Qle_bool_iff].
  - right. split; [reflexivity|now apply (ge_false_iff a b)].
Qed.

(* ------------------------------------------------------------------ *)
(** ** The decision of the name matcher *)

Lemma strip_empty_length (s : string) :
  5 <= String.length (Py.strip s) -> Py.truthy s = true.
Proof. destruct s; simpl; [lia|reflexivity]. Qed.

(** Invariant of the loop over the OCR lines. *)
Lemma similarity_loop ratio user_name (lines : list string) :
  forall acc : Q,
    let s := fold_left (similarity_step ratio (_normalize_name user_name))
                       lines acc in
    (acc <= s)%Q
    /\ (forall line, In line lines -> long_enough user_name line ->
                     (line_similarity ratio user_name line <= s)%Q)
    /\ (s = acc
        \/ exists line, In line lines /\ long_enough user_name line
                        /\ s = line_similarity ratio user_name line).
Proof.
  induction lines as [|l rest IH]; intros acc; cbn [fold_left].
  - split; [apply Qle_refl|]. split; [intros ? []|now left].
  - specialize (IH (similarity_step ratio (_normalize_name user_name) acc l)).
    cbv zeta in IH. destruct IH as (Hge & Hub & Hatt).
    assert (Hstep :
      (acc <= similarity_step ratio (_normalize_name user_name) acc l)%Q
      /\ (long_enough user_name l ->
          (line_similarity ratio user_name l
           <= similarity_step ratio (_normalize_name user_name) acc l)%Q)
      /\ (similarity_step ratio (_normalize_name user_name) acc l = acc
          \/ (long_enough user_name l
              /\ similarity_step ratio (_normalize_name user_name) acc l
                 = line_similarity ratio user_name l))).
    { unfold similarity_step, long_enough, line_similarity.
      destruct (Py.ge _ _) eqn:E.
      - apply ge_true_iff in E.
        destruct (max2_cases acc
                    (ratio (_normalize_name user_name) (_normalize_name l)))
          as [[-> H]|[-> H]].
        + split; [apply Qle_refl|]. split; [now intros _|now left].
        + split; [now apply Qlt_le_weak|].
          split; [intros _; apply Qle_refl|right; now split].
      - apply ge_false_iff in E.
        split; [apply Qle_refl|]. split; [|now left].
        intros H. exfalso. apply (Qlt_not_le _ _ E H). }
    destruct Hstep as (H1 & H2 & H3).
    split; [now apply Qle_trans with (2 := Hge)|]. split.
    + intros line [<-|Hin] Hlong.
      * apply Qle_trans with (2 := Hge). now apply H2.
      * now apply Hub.
    + destruct Hatt as [->|(line & Hin & Hlong & ->)].
      * destruct H3 as [->|[Hlong ->]]; [now left|].
        right. exists l. repeat split; [now left|exact Hlong].
      * right. exists line. repeat split; [now right|exact Hlong].
Qed.

Lemma max_similarity_is_largest ratio ocr_text user_name :
  largest_line_similarity ratio ocr_text user_name
    (max_similarity_of ratio ocr_text user_name).
Proof.
  unfold largest_line_similarity, max_similarity_of.
  pose proof (similarity_loop ratio user_name
                (Py.split_on Py.LF ocr_text) 0%Q) as H.
  cbv zeta in H. exact H.
Qed.

(** C7, as the code has it. With the similarity library present, a
    non-empty claimed name that has a token after normalization and an
    OCR text of at least 5 characters after trimming, the result is a
    match exactly when [match_ratio] is at least 0.60 or
    [max_similarity] at least 0.65; matched or not, the confidence is
    the larger of the two; and [max_similarity] is the largest
    similarity of the normalized name to an OCR line whose normalized
    length is at least 40% of the normalized name's. *)
Theorem match_name_decided_by_thresholds :
  forall (ratio : string -> string -> Q) (ocr_text user_name : string),
    user_name <> "" ->
    5 <= String.length (Py.strip ocr_text) ->
    user_tokens_of user_name <> [] ->
    decided_by_thresholds ratio ocr_text user_name
    /\ snd (fst (_match_name (Some ratio) ocr_text user_name))
       = Py.max2 (match_ratio_of ratio ocr_text user_name)
                 (max_similarity_of ratio ocr_text user_name)
    /\ largest_line_similarity ratio ocr_text user_name
         (max_similarity_of ratio ocr_text user_name).
Proof.
  intros ratio ocr_text user_name Hname Hocr Htokens.
  split; [|split]; [| |apply max_similarity_is_largest];
    unfold decided_by_thresholds, _match_name;
    apply truthy_true_iff in Hname; rewrite Hname;
    rewrite (strip_empty_length _ Hocr);
    apply Nat.ltb_ge in Hocr; rewrite Hocr; cbn [negb orb];
    (destruct (user_tokens_of user_name) as [|t ts] eqn:Et;
     [contradiction|]).
  - destruct (Py.ge (match_ratio_of ratio ocr_text user_name) 0.60) eqn:E1;
      destruct (Py.ge (max_similarity_of ratio ocr_text user_name) 0.65)
        eqn:E2; cbn [orb];
      (split; [|apply max2_Qmax]);
      try apply ge_true_iff in E1; try apply ge_true_iff in E2;
      try apply ge_false_iff in E1; try apply ge_false_iff in E2;
      (split; [first [discriminate | now auto]|]);
      try reflexivity.
    intros [H|H]; exfalso;
      [apply (Qlt_not_le _ _ E1 H)|apply (Qlt_not_le _ _ E2 H)].
  - destruct (Py.ge (match_ratio_of ratio ocr_text user_name) 0.60 || _);
      reflexivity.
Qed.

Lemma match_name_decided_by_thresholds_witness :
  decided_by_thresholds Sample.indel_ratio
    "REPUBLIKA NG PILIPINAS
JUAN DELA KRUZ" "Juan Dela Cruz".
Proof.
  refine (proj1 (match_name_decided_by_thresholds Sample.indel_ratio
                   _ "Juan Dela Cruz" _ _ _)).
  - discriminate.
  - vm_compute. lia.
  - vm_compute. discriminate.
Defined.

(** C7, as stated, fails for a claimed name without a letter: "123"
    against a readable text is reported as a match with confidence
    0.5 although both ratios are 0. *)
Lemma match_name_without_letters_not_decided_by_thresholds :
  "123" <> ""
  /\ 5 <= String.length (Py.strip "hello world")
  /\ _match_name (Some Sample.indel_ratio) "hello world" "123"
     = (true, 0.5%Q, "User name format issue (manual verification required).")
  /\ ~ decided_by_thresholds Sample.indel_ratio "hello world" "123".
Proof.
  split; [discriminate|]. split; [vm_compute; lia|].
  split; [reflexivity|].
  unfold decided_by_thresholds.
  change (_match_name (Some Sample.indel_ratio) "hello world" "123")
    with (true, 0.5%Q,
          "User name format issue (manual verification required).").
  assert (Hr : match_ratio_of Sample.indel_ratio "hello world" "123" = 0%Q)
    by (vm_compute; reflexivity).
  assert (Hs : max_similarity_of Sample.indel_ratio "hello world" "123" = 0%Q)
    by (vm_compute; reflexivity).
  rewrite Hr, Hs. intros [[H _] _].
  destruct (H eq_refl) as [H'|H']; vm_compute in H'; now apply H'.
Qed.

(* ------------------------------------------------------------------ *)
(** ** The orientation search *)

Lemma rotation_for_angles :
  rotation_for 90 = ROTATE_90_CLOCKWISE
  /\ rotation_for 270 = ROTATE_90_COUNTERCLOCKWISE
  /\ rotation_for 180 = ROTATE_180.
Proof. repeat split; vm_compute; reflexivity. Qed.

(** Reading the four comparisons of the search off as inequalities. *)
Ltac read_comparisons :=
  repeat match goal with
         | H : Py.gt _ _ = true |- _ => apply gt_true_iff in H
         | H : Py.gt _ _ = false |- _ => apply gt_false_iff in H
         | H : Py.lt _ _ = true |- _ => apply lt_true_iff in H
         | H : Py.lt _ _ = false |- _ => apply lt_false_iff in H
         end.

(** One of four positions, each settled by linear arithmetic. *)
Ltac each_position j :=
  destruct j as [|[|[|[|j]]]]; cbn [nth]; try lia; try lra.

(** The [i]-th of four candidates is the earliest best one. *)
Ltac best_is i :=
  solve [ exists i; unfold earliest_best, score_at; cbn [List.length nth];
          repeat split; try lia; intros j Hj; each_position j ].

(** C6. With OpenCV and pytesseract present, the unrotated image is
    attempted first; with a score of at least 5 its text is returned
    and nothing else is attempted; otherwise 90, 270 and 180 degrees
    are attempted in this order and the text returned is the best
    scoring of the four candidates, the earliest among equals. *)
Theorem extract_text_orientation_search :
  forall (Image : Type) (M : Modules Image) (cv : Cv2 Image)
         (tess : Tesseract Image) (image : Image),
    cv2 M = Some cv ->
    pytesseract M = Some tess ->
    let texts := candidates M cv image in
    let text := _extract_text_from_image M image in
    let attempts := snd (_extract_text_from_image_log M image) in
    ((5 <= score_at texts 0)%Q -> text = nth 0 texts "" /\ attempts = [0])
    /\ ((score_at texts 0 < 5)%Q ->
        attempts = [0; 90; 270; 180]
        /\ exists i, earliest_best texts i /\ text = nth i texts "").
Proof.
  intros Image M cv tess image Hcv Htess texts text attempts.
  subst texts text attempts.
  unfold _extract_text_from_image, _extract_text_from_image_log.
  rewrite Hcv, Htess.
  unfold candidates, score_at. cbn [nth fold_left].
  unfold rotation_step.
  destruct rotation_for_angles as (-> & -> & ->).
  set (t0 := _ocr_attempt M image).
  set (t1 := _ocr_attempt M (rotate cv image ROTATE_90_CLOCKWISE)).
  set (t2 := _ocr_attempt M (rotate cv image ROTATE_90_COUNTERCLOCKWISE)).
  set (t3 := _ocr_attempt M (rotate cv image ROTATE_180)).
  destruct (Py.lt (_text_quality_score t0) 5) eqn:E0.
  - split; [intros H; read_comparisons; lra|].
    intros _.
    repeat match goal with
           | |- context [Py.gt ?a ?b] => destruct (Py.gt a b) eqn:?
           end;
      cbn [fst snd app]; (split; [reflexivity|]); read_comparisons;
      first [best_is 0 | best_is 1 | best_is 2 | best_is 3].
  - split; [intros _; split; reflexivity|].
    intros H. read_comparisons. lra.
Qed.

Lemma extract_text_orientation_search_witness :
  (let M := Sample.full (Sample.card_with_text
              ["REPUBLIKA NG PILIPINAS PAMBANSANG PAGKAKAKILANLAN JUAN CRUZ";
               "x"; "y"; "z"]) in
   _extract_text_from_image M
     (Sample.card_with_text
        ["REPUBLIKA NG PILIPINAS PAMBANSANG PAGKAKAKILANLAN JUAN CRUZ";
         "x"; "y"; "z"])
   = "REPUBLIKA NG PILIPINAS PAMBANSANG PAGKAKAKILANLAN JUAN CRUZ")
  /\ (let p := Sample.card_with_text
                 ["|||"; "JUAN DELA CRUZ MANILA"; "CRUZ DELA JUAN MANILA";
                  "JUAN CRUZ"] in
      snd (_extract_text_from_image_log (Sample.full p) p)
      = [0; 90; 270; 180]).
Proof.
  split.
  - cbv zeta.
    refine (proj1 (proj1 (extract_text_orientation_search
                            _ (Sample.full _) _ _ _ eq_refl eq_refl) _)).
    vm_compute. discriminate.
  - cbv zeta.
    refine (proj1 (proj2 (extract_text_orientation_search
                            _ (Sample.full _) _ _ _ eq_refl eq_refl) _)).
    vm_compute. reflexivity.
Defined.

Example orientation_tie_keeps_earliest :
  let p := Sample.card_with_text
             ["|||"; "JUAN DELA CRUZ MANILA"; "CRUZ DELA JUAN MANILA";
              "JUAN CRUZ"] in
  _extract_text_from_image_log (Sample.full p) p
  = ("JUAN DELA CRUZ MANILA", [0; 90; 270; 180])
  /\ score_at (candidates (Sample.full p) (Sample.sample_cv2 (Sample.serving p))
                          p) 1
     = score_at (candidates (Sample.full p)
                            (Sample.sample_cv2 (Sample.serving p)) p) 2.
Proof. split; vm_compute; reflexivity. Qed.

Example extraction_without_tesseract :
  let p := Sample.card_with_text ["JUAN DELA CRUZ"; ""; ""; ""] in
  _extract_text_from_image_log
    {| cv2 := Some (Sample.sample_cv2 (Sample.serving p));
       pytesseract := None; Levenshtein := None |} p
  = ("", []).
Proof. reflexivity. Qed.

(* ------------------------------------------------------------------ *)
(** ** The decision cascade *)

Section CascadeFacts.

Variable m : Measurements.
Variable normalized_id_type : string.
Variable id_number : option string.
Variable name_match_result : option (bool * Q * string).

Let cond := condition m normalized_id_type id_number name_match_result.
Let fired := first_match m normalized_id_type id_number name_match_result.

(** The nested conditionals of [decide] return the outcome of the
    first rule of the cascade whose condition holds. *)
Lemma decide_outcome :
  decide m normalized_id_type id_number name_match_result
  = outcome m normalized_id_type id_number name_match_result fired.
Proof.
  subst fired. unfold decide, first_match, cascade.
  cbn [find condition].
  repeat match goal with
         | |- (if ?c then _ else _) = _ => destruct c; [reflexivity|]
         end.
  reflexivity.
Qed.

Lemma first_match_holds : cond fired = true.
Proof.
  subst cond fired. unfold first_match, cascade. cbn [find].
  repeat match goal with
         | |- context [if ?c then Some ?b else _] =>
             destruct c eqn:?; [assumption|]
         end.
  reflexivity.
Qed.



Lemma outcome_checks (b : Branch) :
  checks (outcome m normalized_id_type id_number name_match_result b)
  = build_checks m normalized_id_type id_number name_match_result.
Proof. destruct b; reflexivity. Qed.


End CascadeFacts.


(** With OpenCV present and the image downloaded, the result is the
    decision on the measurements. *)
Lemma analyze_id_image_decides {Image} (M : Modules Image) cv image
  image_url id_type user_name id_number :
  cv2 M = Some cv ->
  fetch_decode cv image_url = Some image ->
  analyze_id_image M image_url id_type user_name id_number
  = Returned (decide (measure M cv image) (_normalize_id_type id_type)
                     id_number (name_match_for M image user_name)).
Proof.
  intros Hcv Hfetch. unfold analyze_id_image, _download_image.
  now rewrite Hcv, Hfetch.
Qed.



Example sharp_card_is_valid :
  let p := Sample.card_with_text [] in
  exists r,
    analyze_id_image (Sample.full p) "u" (Some "National ID") None None
    = Returned r
    /\ status r = Valid /\ category r = identification_card
    /\ message r
       = "Image features are consistent with a valid National ID card capture.".
Proof. eexists. split; [reflexivity|]. repeat split; vm_compute; reflexivity. Qed.

(* ------------------------------------------------------------------ *)
(** ** The checks of a result *)

Lemma image_check_names (m : Measurements) :
  map ImageCheck.name (image_checks m) = unconditional_check_names.
Proof. reflexivity. Qed.

Lemma build_checks_names m ty id_number name_match_result :
  map ImageCheck.name (build_checks m ty id_number name_match_result)
  = (unconditional_check_names
     ++ (if Py.truthy_opt id_number then ["ID Number Format"] else [])
     ++ (match name_match_result with
         | Some _ => ["Name Match"]
         | None => []
         end))%list.
Proof.
  unfold build_checks.
  destruct name_match_result as [[[is_match similarity] detail]|];
    destruct (Py.truthy_opt id_number);
    rewrite ?map_app, image_check_names; reflexivity.
Qed.

Lemma name_match_for_claimed {Image} (M : Modules Image) image user_name :
  match name_match_for M image user_name with
  | Some _ => ["Name Match"]
  | None => []
  end
  = if Py.truthy_opt user_name then ["Name Match"] else [].
Proof.
  unfold name_match_for. destruct user_name as [name|]; [|reflexivity].
  cbn [Py.truthy_opt]. destruct (Py.truthy name); reflexivity.
Qed.

(** C1, as the code has it. A result returned with OpenCV present
    lists the seven unconditional checks in their fixed order, then
    ID Number Format exactly when a number was claimed, then Name Match
    exactly when a name was claimed, whichever rule decided; a result
    returned without OpenCV lists no check at all. *)
Theorem analyze_checks_fixed_order :
  forall (Image : Type) (M : Modules Image) (image_url : string)
         (id_type user_name id_number : option string)
         (r : ImageAnalysisResult),
    analyze_id_image M image_url id_type user_name id_number = Returned r ->
    (cv2 M <> None ->
     check_names r = announced_check_names id_number user_name)
    /\ (cv2 M = None -> checks r = []).
Proof.
  intros Image M url id_type user_name id_number r.
  unfold analyze_id_image, _download_image.
  destruct (cv2 M) as [cv|].
  - destruct (fetch_decode cv url) as [image|]; [|discriminate].
    intros [= <-]. split; [|discriminate]. intros _.
    unfold check_names, announced_check_names.
    rewrite decide_outcome, outcome_checks, build_checks_names.
    now rewrite name_match_for_claimed.
  - intros [= <-]. split; [congruence|reflexivity].
Qed.

Lemma analyze_checks_fixed_order_witness :
  exists r,
    analyze_id_image (Sample.full Sample.blurred_card)
      "https://example.org/id.jpg" (Some "National ID")
      (Some "Juan Dela Cruz") (Some "1234") = Returned r
    /\ check_names r
       = [ "Card Boundary"; "Printed Details"; "Sharpness"; "Lighting";
           "Selfie Signal"; "Card Portrait"; "Screenshot Signal";
           "ID Number Format"; "Name Match" ].
Proof.
  eexists. split; [reflexivity|].
  refine (proj1 (analyze_checks_fixed_order
                   _ (Sample.full Sample.blurred_card)
                   "https://example.org/id.jpg" (Some "National ID")
                   (Some "Juan Dela Cruz") (Some "1234") _ eq_refl) _).
  discriminate.
Defined.

(** C1, as stated, fails without OpenCV: a result is returned, and
    its list of checks is empty. *)
Lemma checks_missing_without_cv2 :
  exists r,
    analyze_id_image Sample.without_cv2 "https://example.org/id.jpg"
      (Some "National ID") (Some "Juan Dela Cruz") (Some "1234")
    = Returned r
    /\ check_names r = []
    /\ check_names r
       <> announced_check_names (Some "1234") (Some "Juan Dela Cruz").
Proof.
  eexists. split; [reflexivity|]. split; [reflexivity|]. discriminate.
Qed.

(* ------------------------------------------------------------------ *)
(** ** The selfie rule *)

Lemma selfie_signal_true_iff (m : Measurements) :
  selfie_signal m = true
  <-> (0.08 <= largest_face_ratio m)%Q
      /\ has_document_shape m = false
      /\ (text_density m < 0.015)%Q.
Proof.
  unfold selfie_signal.
  rewrite !andb_true_iff, negb_true_iff, ge_true_iff, lt_true_iff. tauto.
Qed.



Example selfie_with_larger_face :
  let p := Sample.picture 80 0.005 false [(0, 0, 600, 700)%Z] [] in
  exists r,
    analyze_id_image (Sample.full p) "u" None None None = Returned r
    /\ category r = selfie /\ (confidence r == 0.99)%Q.
Proof. eexists. split; [reflexivity|]. split; vm_compute; reflexivity. Qed.

(* ------------------------------------------------------------------ *)
(** ** Without the similarity library *)

Lemma match_name_without_levenshtein (ocr_text user_name : string) :
  fst (fst (_match_name None ocr_text user_name)) = true.
Proof.
  unfold _match_name.
  destruct (negb (Py.truthy user_name)); [reflexivity|].
  destruct (negb (Py.truthy ocr_text) || _); reflexivity.
Qed.

Lemma name_mismatch_without_levenshtein {Image} (M : Modules Image)
  image user_name :
  Levenshtein M = None ->
  name_mismatch (name_match_for M image user_name) = false.
Proof.
  intros HL. unfold name_mismatch, name_match_for.
  destruct user_name as [name|]; [|reflexivity].
  destruct (Py.truthy name); [|reflexivity].
  rewrite HL.
  pose proof (match_name_without_levenshtein
                (_extract_text_from_image M image) name) as H.
  destruct (_match_name None _ name) as [[is_match similarity] detail].
  cbn in H. now rewrite H.
Qed.

(** C9. Without the similarity library, a non-empty claimed name
    against an OCR text of at least 5 characters after trimming is
    reported as a match with confidence 0.5 and a detail asking for
    manual verification; so the name-mismatch rule never fires: every
    result of [analyze_id_image] is either the report of the missing
    image dependency or the outcome of another rule. *)
Theorem no_name_rejection_without_levenshtein :
  (forall ocr_text user_name : string,
     user_name <> "" ->
     5 <= String.length (Py.strip ocr_text) ->
     _match_name None ocr_text user_name
     = (true, 0.5%Q,
        "Name matching library not available (manual verification required)."))
  /\ (forall (Image : Type) (M : Modules Image) (image_url : string)
             (id_type user_name id_number : option string)
             (r : ImageAnalysisResult),
        Levenshtein M = None ->
        analyze_id_image M image_url id_type user_name id_number
        = Returned r ->
        (cv2 M = None /\ message r = dependency_missing)
        \/ exists cv image b,
             cv2 M = Some cv
             /\ fetch_decode cv image_url = Some image
             /\ name_mismatch (name_match_for M image user_name) = false
             /\ b <> name_mismatch_branch
             /\ b = first_match (measure M cv image)
                                (_normalize_id_type id_type) id_number
                                (name_match_for M image user_name)
             /\ r = outcome (measure M cv image)
                            (_normalize_id_type id_type) id_number
                            (name_match_for M image user_name) b).
Proof.
  split.
  - intros ocr_text user_name Hname Hocr. unfold _match_name.
    apply truthy_true_iff in Hname. rewrite Hname.
    rewrite (strip_empty_length _ Hocr).
    apply Nat.ltb_ge in Hocr. now rewrite Hocr.
  - intros Image M url id_type user_name id_number r HL.
    destruct (cv2 M) as [cv|] eqn:Hcv.
    + destruct (fetch_decode cv url) as [image|] eqn:Hfetch.
      * rewrite (analyze_id_image_decides M cv image) by assumption.
        intros [= <-]. right. exists cv, image.
        set (m := measure M cv image).
        set (ty := _normalize_id_type id_type).
        set (found := name_match_for M image user_name).
        pose proof (name_mismatch_without_levenshtein M image user_name HL)
          as Hno.
        exists (first_match m ty id_number found).
        repeat split; try assumption.
        -- intros Heq.
           pose proof (first_match_holds m ty id_number found) as Hholds.
           rewrite Heq in Hholds. cbn [condition] in Hholds.
           subst found. congruence.
        -- apply decide_outcome.
      * unfold analyze_id_image, _download_image.
        rewrite Hcv, Hfetch. discriminate.
    + unfold analyze_id_image. rewrite Hcv. intros [= <-].
      left. split; reflexivity.
Qed.

Lemma no_name_rejection_without_levenshtein_witness :
  _match_name None "REPUBLIKA NG PILIPINAS MARIA SANTOS" "Juan Dela Cruz"
  = (true, 0.5%Q,
     "Name matching library not available (manual verification required).")
  /\ exists b,
       b <> name_mismatch_branch
       /\ analyze_id_image (Sample.without_levenshtein Sample.santos_card)
            "https://example.org/id.jpg" (Some "National ID")
            (Some "Juan Dela Cruz") None
          = Returned
              (outcome
                 (measure (Sample.without_levenshtein Sample.santos_card)
                          (Sample.sample_cv2 (Sample.serving Sample.santos_card))
                          Sample.santos_card)
                 "National ID" None
                 (name_match_for
                    (Sample.without_levenshtein Sample.santos_card)
                    Sample.santos_card (Some "Juan Dela Cruz"))
                 b).
Proof.
  destruct no_name_rejection_without_levenshtein as [Hmatch Hrule].
  split.
  - apply Hmatch; [discriminate|vm_compute; lia].
  - destruct (Hrule Sample.Picture
                    (Sample.without_levenshtein Sample.santos_card)
                    "https://example.org/id.jpg" (Some "National ID")
                    (Some "Juan Dela Cruz") None _ eq_refl
                    (analyze_id_image_decides
                       (Sample.without_levenshtein Sample.santos_card)
                       (Sample.sample_cv2 (Sample.serving Sample.santos_card))
                       Sample.santos_card "https://example.org/id.jpg"
                       (Some "National ID") (Some "Juan Dela Cruz") None
                       eq_refl eq_refl))
      as [[Hnone _]|(cv & image & b & Hcv & Hfetch & _ & Hb & _ & Hr)].
    + discriminate Hnone.
    + injection Hcv as <-. injection Hfetch as <-.
      exists b. split; [exact Hb|].
      etransitivity; [|apply f_equal; exact Hr].
      exact (analyze_id_image_decides
               (Sample.without_levenshtein Sample.santos_card)
               (Sample.sample_cv2 (Sample.serving Sample.santos_card))
               Sample.santos_card "https://example.org/id.jpg"
               (Some "National ID") (Some "Juan Dela Cruz") None
               eq_refl eq_refl).
Defined.

Example santos_card_valid_without_levenshtein :
  exists r,
    analyze_id_image (Sample.without_levenshtein Sample.santos_card)
      "https://example.org/id.jpg" (Some "National ID")
      (Some "Juan Dela Cruz") None = Returned r
    /\ status r = Valid.
Proof. eexists. split; [reflexivity|]. vm_compute. reflexivity. Qed.

Example santos_card_rejected_with_levenshtein :
  first_match (measure (Sample.full Sample.santos_card)
                       (Sample.sample_cv2 (Sample.serving Sample.santos_card))
                       Sample.santos_card)
              "National ID" None
              (name_match_for (Sample.full Sample.santos_card)
                              Sample.santos_card (Some "Juan Dela Cruz"))
  = name_mismatch_branch.
Proof. vm_compute. reflexivity. Qed.

(* ================================================================== *)
(** * Further properties of the image validator *)

(* ------------------------------------------------------------------ *)
(** ** Clamped values *)

Lemma min2_spec (a b : Q) :
  (Py.min2 a b <= a)%Q /\ (Py.min2 a b <= b)%Q
  /\ (Py.min2 a b = a \/ Py.min2 a b = b).
Proof.
  unfold Py.min2. destruct (Qle_bool a b) eqn:E.
  - apply Qle_bool_iff in E. repeat split; [lra|exact E|now left].
  - apply (ge_false_iff b a) in E. repeat split; [lra|lra|now right].
Qed.

Lemma max2_spec (a b : Q) :
  (a <= Py.max2 a b)%Q /\ (b <= Py.max2 a b)%Q
  /\ (Py.max2 a b = a \/ Py.max2 a b = b).
Proof.
  destruct (max2_cases a b) as [[-> H]|[-> H]];
    repeat split; try lra; auto.
Qed.

(** [min(hi, max(lo, x))] lies between [lo] and [hi]. *)
Lemma clamp_bounds (lo hi x : Q) :
  (lo <= hi)%Q ->
  (lo <= Py.min2 hi (Py.max2 lo x) <= hi)%Q.
Proof.
  intros H.
  destruct (min2_spec hi (Py.max2 lo x)) as (H1 & H2 & [E|E]);
    rewrite E in *.
  - lra.
  - destruct (max2_spec lo x) as (H3 & _). lra.
Qed.

(** X1. The document score is clamped: whatever was measured, it lies
    between 0 and 1. *)
Theorem document_score_in_unit_interval :
  forall m : Measurements, (0 <= document_score m <= 1)%Q.
Proof.
  intros m. unfold document_score.
  match goal with
  | |- (_ <= Py.max2 0 (Py.min2 1 ?sum) <= _)%Q => generalize sum
  end.
  intros raw.
  destruct (max2_spec 0 (Py.min2 1 raw)) as (H1 & H2 & [E|E]);
    rewrite E in *.
  - lra.
  - destruct (min2_spec 1 raw) as (H3 & _). lra.
Qed.

Example document_score_saturates :
  (document_score
     {| quality := {| brightness := 120; contrast := 30; sharpness := 80;
                      edge_density := 0.05 |};
        text_density := 0.02; largest_face_ratio := 0.1;
        has_document_shape := true |} == 1)%Q
  /\ (document_score
        {| quality := {| brightness := 10; contrast := 0; sharpness := 0;
                         edge_density := 0 |};
           text_density := 0; largest_face_ratio := 0.5;
           has_document_shape := false |} == 0)%Q.
Proof. split; vm_compute; reflexivity. Qed.

(* ------------------------------------------------------------------ *)
(** ** Signals *)

(** X2. The signals are consistent: the selfie and the screenshot
    signal never hold together, each of them excludes a document
    shape, and a severe blur is a soft blur as well. *)
Theorem signals_are_consistent :
  forall m : Measurements,
    (selfie_signal m = true -> screenshot_like_signal m = false)
    /\ (selfie_signal m = true -> has_document_shape m = false)
    /\ (screenshot_like_signal m = true -> has_document_shape m = false)
    /\ (severe_blur m = true -> soft_blur m = true).
Proof.
  intros m. unfold selfie_signal, screenshot_like_signal, severe_blur,
    soft_blur.
  repeat split.
  - rewrite !andb_true_iff, negb_true_iff, lt_true_iff.
    intros [[_ _] Hlow].
    destruct (Py.ge (text_density m) 0.025) eqn:E;
      [|now rewrite !andb_false_r].
    apply ge_true_iff in E. lra.
  - rewrite !andb_true_iff, negb_true_iff. tauto.
  - rewrite !andb_true_iff, negb_true_iff. tauto.
  - rewrite !lt_true_iff. lra.
Qed.

Lemma signals_are_consistent_witness :
  screenshot_like_signal
    (measure (Sample.full Sample.selfie_picture)
             (Sample.sample_cv2 (Sample.serving Sample.selfie_picture))
             Sample.selfie_picture) = false.
Proof.
  apply (proj1 (signals_are_consistent _)). vm_compute. reflexivity.
Defined.

(* ------------------------------------------------------------------ *)
(** ** Shape of every result *)

Section ResultFacts.

Variable m : Measurements.
Variable ty : string.
Variable id_number : option string.
Variable found : option (bool * Q * string).

Lemma outcome_confidence_bounds (b : Branch) :
  condition m ty id_number found b = true ->
  (0 <= confidence (outcome m ty id_number found b) <= 0.99)%Q.
Proof.
  destruct b; cbn [condition outcome branch_result result confidence];
    intros Hcond;
    try match goal with
        | |- (_ <= Py.min2 ?hi (Py.max2 ?lo ?x) <= _)%Q =>
            pose proof (clamp_bounds lo hi x) as Hc; lra
        end.
  - apply selfie_signal_true_iff in Hcond. destruct Hcond as (Hface & _).
    destruct (min2_spec 0.99 (0.65 + largest_face_ratio m))
      as (H1 & H2 & [E|E]); rewrite E in *; lra.
  - lra.
Qed.


End ResultFacts.

Lemma returned_confidence_bounds {Image} (M : Modules Image) image_url
  id_type user_name id_number r :
  analyze_id_image M image_url id_type user_name id_number = Returned r ->
  (0 <= confidence r <= 0.99)%Q.
Proof.
  destruct (cv2 M) as [cv|] eqn:Hcv.
  - destruct (fetch_decode cv image_url) as [image|] eqn:Hfetch.
    + rewrite (analyze_id_image_decides M cv image) by assumption.
      intros [= <-]. rewrite decide_outcome.
      apply outcome_confidence_bounds, first_match_holds.
    + unfold analyze_id_image, _download_image.
      rewrite Hcv, Hfetch. discriminate.
  - unfold analyze_id_image. rewrite Hcv. intros [= <-]. cbn. lra.
Qed.

(** X3. The confidence of every result that [analyze_id_image]
    returns lies between 0 and 0.99. *)
Theorem analyze_confidence_bounds :
  forall (Image : Type) (M : Modules Image) (image_url : string)
         (id_type user_name id_number : option string)
         (r : ImageAnalysisResult),
    analyze_id_image M image_url id_type user_name id_number = Returned r ->
    (0 <= confidence r <= 0.99)%Q.
Proof.
  intros Image M url id_type user_name id_number r.
  apply returned_confidence_bounds.
Qed.

Lemma analyze_confidence_bounds_witness :
  exists r,
    analyze_id_image (Sample.full Sample.selfie_picture)
      "https://example.org/me.jpg" None None None = Returned r
    /\ (0 <= confidence r <= 0.99)%Q.
Proof.
  eexists. split; [reflexivity|].
  exact (analyze_confidence_bounds
           _ (Sample.full Sample.selfie_picture)
           "https://example.org/me.jpg" None None None _ eq_refl).
Defined.



(* ------------------------------------------------------------------ *)
(** ** What a Valid result has passed *)





(** A Valid result whose Name Match check reads fail: the matcher's
    confidence is too low for the mismatch exit. *)
Example valid_with_failed_name_match :
  exists r,
    analyze_id_image (Sample.full Sample.santos_card)
      "https://example.org/id.jpg" (Some "National ID")
      (Some "Xyz Qwv") None = Returned r
    /\ status r = Valid
    /\ failed_check_names r = ["Name Match"].
Proof. eexists. split; [reflexivity|]. split; vm_compute; reflexivity. Qed.

(* ------------------------------------------------------------------ *)
(** ** The name reaches the verdict through one exit only *)

Lemma decide_without_mismatch m ty id_number found :
  name_mismatch found = false ->
  let r := decide m ty id_number found in
  let r0 := decide m ty id_number None in
  status r = status r0 /\ category r = category r0
  /\ message r = message r0 /\ reasons r = reasons r0
  /\ confidence r = confidence r0.
Proof.
  intros Hno r r0. subst r r0.
  assert (Hsame : first_match m ty id_number found
                  = first_match m ty id_number None).
  { unfold first_match, cascade. cbn [find condition].
    rewrite Hno. reflexivity. }
  rewrite !decide_outcome, Hsame.
  pose proof (first_match_holds m ty id_number None) as Hholds.
  destruct (first_match m ty id_number None);
    cbn [outcome branch_result result status category message reasons
         confidence];
    try (repeat apply conj; reflexivity).
  cbn in Hholds. discriminate.
Qed.

(** X6. When the name-mismatch test is negative, the claimed name
    changes nothing but the Name Match check: status, category,
    message, reasons and confidence are those of the same call made
    without a name. *)
Theorem name_changes_verdict_only_by_mismatch :
  forall (Image : Type) (M : Modules Image) (cv : Cv2 Image)
         (image : Image) (image_url : string)
         (id_type user_name id_number : option string),
    cv2 M = Some cv ->
    fetch_decode cv image_url = Some image ->
    name_mismatch (name_match_for M image user_name) = false ->
    exists r r0,
      analyze_id_image M image_url id_type user_name id_number = Returned r
      /\ analyze_id_image M image_url id_type None id_number = Returned r0
      /\ status r = status r0 /\ category r = category r0
      /\ message r = message r0 /\ reasons r = reasons r0
      /\ confidence r = confidence r0.
Proof.
  intros Image M cv image url id_type user_name id_number Hcv Hfetch Hno.
  do 2 eexists.
  split; [now apply (analyze_id_image_decides M cv image)|].
  split; [now apply (analyze_id_image_decides M cv image)|].
  now apply decide_without_mismatch.
Qed.

Lemma name_changes_verdict_only_by_mismatch_witness :
  exists r r0,
    analyze_id_image (Sample.full Sample.santos_card)
      "https://example.org/id.jpg" (Some "National ID")
      (Some "Maria Santos") None = Returned r
    /\ analyze_id_image (Sample.full Sample.santos_card)
         "https://example.org/id.jpg" (Some "National ID") None None
       = Returned r0
    /\ status r = status r0.
Proof.
  destruct (name_changes_verdict_only_by_mismatch
              _ (Sample.full Sample.santos_card)
              (Sample.sample_cv2 (Sample.serving Sample.santos_card))
              Sample.santos_card "https://example.org/id.jpg"
              (Some "National ID") (Some "Maria Santos") None
              eq_refl eq_refl)
    as (r & r0 & Hr & Hr0 & Hst & _).
  - vm_compute. reflexivity.
  - exists r, r0. repeat split; assumption.
Defined.

(* ------------------------------------------------------------------ *)
(** ** The endpoint *)

Lemma analyze_raises_iff {Image} (M : Modules Image) image_url
  id_type user_name id_number :
  analyze_id_image M image_url id_type user_name id_number = Raised
  <-> exists cv, cv2 M = Some cv /\ fetch_decode cv image_url = None.
Proof.
  unfold analyze_id_image, _download_image.
  destruct (cv2 M) as [cv|].
  - destruct (fetch_decode cv image_url) as [image|] eqn:Hfetch; split.
    + discriminate.
    + intros (cv' & [= <-] & H). congruence.
    + intros _. now exists cv.
    + reflexivity.
  - split; [discriminate|]. intros (cv & H & _). discriminate.
Qed.

Lemma returned_check_count {Image} (M : Modules Image) image_url
  id_type user_name id_number r :
  analyze_id_image M image_url id_type user_name id_number = Returned r ->
  List.length (checks r) <> 1.
Proof.
  destruct (cv2 M) as [cv|] eqn:Hcv.
  - destruct (fetch_decode cv image_url) as [image|] eqn:Hfetch.
    + rewrite (analyze_id_image_decides M cv image) by assumption.
      intros [= <-]. rewrite decide_outcome, outcome_checks.
      rewrite <- (length_map ImageCheck.name), build_checks_names.
      rewrite !length_app. cbn. lia.
    + unfold analyze_id_image, _download_image.
      rewrite Hcv, Hfetch. discriminate.
  - unfold analyze_id_image. rewrite Hcv. intros [= <-]. cbn. lia.
Qed.

Lemma returned_without_number {Image} (M : Modules Image) image_url
  id_type user_name r :
  analyze_id_image M image_url id_type user_name None = Returned r ->
  ~ In "ID Number Format" (check_names r).
Proof.
  destruct (cv2 M) as [cv|] eqn:Hcv.
  - destruct (fetch_decode cv image_url) as [image|] eqn:Hfetch.
    + rewrite (analyze_id_image_decides M cv image) by assumption.
      intros [= <-]. unfold check_names.
      rewrite decide_outcome, outcome_checks, build_checks_names.
      cbn [Py.truthy_opt]. rewrite !in_app_iff.
      intros [H|[[]|H]].
      * cbn in H. repeat destruct H as [H|H]; discriminate || exact H.
      * destruct (name_match_for M image user_name); cbn in H;
          [destruct H as [H|[]]; discriminate|exact H].
    + unfold analyze_id_image, _download_image.
      rewrite Hcv, Hfetch. discriminate.
  - unfold analyze_id_image. rewrite Hcv. intros [= <-]. cbn. tauto.
Qed.

(** X7. The endpoint always answers. It answers with the fallback
    response (one failed Image Fetch check, confidence 0) exactly when
    the download raised; otherwise it forwards the result of the
    analysis field by field, the declared bounds of the confidence
    never rejecting it. As the claimed ID number is not passed on, no
    response lists an ID Number Format check. *)
Theorem endpoint_answers :
  forall (Image : Type) (M : Modules Image)
         (payload : Schemas.ImageValidationRequest),
    let response := analyze_id_image_endpoint M payload in
    (response = fallback_response
     <-> exists cv,
           cv2 M = Some cv
           /\ fetch_decode cv (Schemas.image_url payload) = None)
    /\ (forall r,
          analyze_id_image M (Schemas.image_url payload)
                           (Some (Schemas.id_type payload))
                           (Schemas.user_name payload) None = Returned r ->
          Schemas.response_status response = status r
          /\ Schemas.response_category response = category r
          /\ Schemas.response_message response = message r
          /\ Schemas.response_reasons response = reasons r
          /\ map Schemas.name (Schemas.response_checks response)
             = check_names r
          /\ map Schemas.status (Schemas.response_checks response)
             = map ImageCheck.status (checks r)
          /\ Schemas.response_confidence response = confidence r)
    /\ ~ In "ID Number Format"
            (map Schemas.name (Schemas.response_checks response))
    /\ (0 <= Schemas.response_confidence response <= 1)%Q.
Proof.
  intros Image M payload response. subst response.
  unfold analyze_id_image_endpoint.
  pose proof (analyze_raises_iff M (Schemas.image_url payload)
                (Some (Schemas.id_type payload))
                (Schemas.user_name payload) None) as Hraise.
  destruct (analyze_id_image M (Schemas.image_url payload)
              (Some (Schemas.id_type payload))
              (Schemas.user_name payload) None) as [r|] eqn:Hr.
  - pose proof (returned_confidence_bounds M _ _ _ _ _ Hr) as [Hlo Hhi].
    pose proof (returned_check_count M _ _ _ _ _ Hr) as Hcount.
    pose proof (returned_without_number M _ _ _ _ Hr) as Hnum.
    unfold Schemas.make_response.
    assert (Hok : Py.ge (confidence r) 0 && Py.le (confidence r) 1 = true).
    { apply andb_true_iff. split; [now apply ge_true_iff|].
      apply Qle_bool_iff. lra. }
    rewrite Hok.
    assert (Hnames : forall cs,
              map Schemas.name (map response_check cs)
              = map ImageCheck.name cs).
    { intros cs. rewrite map_map. reflexivity. }
    split; [|split; [|split]].
    + split.
      * intros Heq. exfalso. apply Hcount.
        apply (f_equal Schemas.response_checks) in Heq.
        apply (f_equal (@List.length _)) in Heq.
        cbn in Heq. now rewrite length_map in Heq.
      * intros H. apply Hraise in H. discriminate.
    + intros r' [= <-]. cbn. rewrite Hnames, map_map.
      repeat split; reflexivity.
    + cbn. now rewrite Hnames.
    + cbn. lra.
  - split; [|split; [|split]].
    + split; [intros _; now apply Hraise|reflexivity].
    + discriminate.
    + cbn. intros [H|[]]. discriminate.
    + cbn. lra.
Qed.

Lemma endpoint_answers_witness :
  let payload :=
    {| Schemas.image_url := "https://example.org/id.jpg";
       Schemas.id_type := "National ID";
       Schemas.user_name := Some "Maria Santos" |} in
  Schemas.response_status
    (analyze_id_image_endpoint (Sample.full Sample.santos_card) payload)
  = Valid
  /\ analyze_id_image_endpoint
       {| cv2 := Some (Sample.sample_cv2 (fun _ => None));
          pytesseract := Some Sample.sample_tesseract;
          Levenshtein := Some Sample.indel_ratio |} payload
     = fallback_response.
Proof.
  cbv zeta. split.
  - destruct (endpoint_answers _ (Sample.full Sample.santos_card)
                {| Schemas.image_url := "https://example.org/id.jpg";
                   Schemas.id_type := "National ID";
                   Schemas.user_name := Some "Maria Santos" |})
      as (_ & Hforward & _).
    destruct (Hforward _ eq_refl) as (-> & _).
    vm_compute. reflexivity.
  - apply (proj1 (endpoint_answers _ _ _)).
    eexists. split; reflexivity.
Defined.

(* ------------------------------------------------------------------ *)
(** ** Trimming *)

Lemma lstrip_first_clean (s : string) (c : ascii) :
  first_char (Py.lstrip s) = Some c -> Py.is_space c = false.
Proof.
  induction s as [|d s IH]; cbn; [discriminate|].
  destruct (Py.is_space d) eqn:Hd; [exact IH|].
  cbn. intros [= <-]. exact Hd.
Qed.

Lemma lstrip_fixed (s : string) :
  (forall c, first_char s = Some c -> Py.is_space c = false) ->
  Py.lstrip s = s.
Proof.
  destruct s as [|d s]; [reflexivity|]. cbn. intros H.
  now rewrite (H d eq_refl).
Qed.

Lemma rstrip_first (s : string) (c : ascii) :
  first_char (Py.rstrip s) = Some c -> first_char s = Some c.
Proof.
  destruct s as [|d s]; cbn; [discriminate|].
  destruct (Py.rstrip s); [destruct (Py.is_space d)|]; cbn; congruence.
Qed.

Lemma rstrip_last_clean (s : string) (c : ascii) :
  last_char (Py.rstrip s) = Some c -> Py.is_space c = false.
Proof.
  induction s as [|d s IH]; cbn; [discriminate|].
  destruct (Py.rstrip s) as [|e r] eqn:Hr.
  - destruct (Py.is_space d) eqn:Hd; cbn; [discriminate|].
    intros [= <-]. exact Hd.
  - exact IH.
Qed.

Lemma rstrip_cons (d : ascii) (s : string) :
  Py.rstrip (String d s)
  = match Py.rstrip s with
    | EmptyString => if Py.is_space d then EmptyString else String d EmptyString
    | r => String d r
    end.
Proof. reflexivity. Qed.

Lemma rstrip_idempotent (s : string) :
  Py.rstrip (Py.rstrip s) = Py.rstrip s.
Proof.
  induction s as [|d s IH]; [reflexivity|]. rewrite rstrip_cons.
  destruct (Py.rstrip s) as [|e r] eqn:Hr.
  - destruct (Py.is_space d) eqn:Hd; cbn; [reflexivity|now rewrite Hd].
  - rewrite rstrip_cons, IH. reflexivity.
Qed.

Lemma strip_stripped (s : string) : stripped (Py.strip s).
Proof.
  unfold stripped, Py.strip. split; intros c H.
  - apply rstrip_first in H. now apply lstrip_first_clean in H.
  - now apply rstrip_last_clean in H.
Qed.

Lemma strip_idempotent (s : string) :
  Py.strip (Py.strip s) = Py.strip s.
Proof.
  unfold Py.strip at 1.
  rewrite lstrip_fixed; [apply rstrip_idempotent|].
  apply strip_stripped.
Qed.

Lemma all_chars_lstrip f (s : string) :
  all_chars f s = true -> all_chars f (Py.lstrip s) = true.
Proof.
  induction s as [|d s IH]; cbn; [reflexivity|].
  destruct (Py.is_space d); [|now cbn].
  intros H. apply andb_true_iff in H. now apply IH.
Qed.

Lemma all_chars_rstrip f (s : string) :
  all_chars f s = true -> all_chars f (Py.rstrip s) = true.
Proof.
  induction s as [|d s IH]; cbn; [reflexivity|].
  intros H. apply andb_true_iff in H. destruct H as [Hd Hs].
  specialize (IH Hs).
  destruct (Py.rstrip s) as [|e r].
  - destruct (Py.is_space d); cbn; [reflexivity|now rewrite Hd].
  - cbn. cbn in IH. now rewrite Hd, IH.
Qed.

Lemma keep_fixed f (s : string) :
  all_chars f s = true -> Py.keep f s = s.
Proof.
  induction s as [|d s IH]; cbn; [reflexivity|].
  intros H. apply andb_true_iff in H. destruct H as [-> Hs].
  now rewrite IH.
Qed.

(* ------------------------------------------------------------------ *)
(** ** Normalized names *)

Lemma lower_char_of_kept (c : ascii) :
  letter_or_space c = true -> lower_or_space (Py.lower_char c) = true.
Proof.
  destruct c as [[] [] [] [] [] [] [] []]; vm_compute; congruence.
Qed.

Lemma lower_or_space_kept (c : ascii) :
  lower_or_space c = true ->
  letter_or_space c = true /\ Py.lower_char c = c.
Proof.
  destruct c as [[] [] [] [] [] [] [] []]; vm_compute;
    first [discriminate | split; reflexivity].
Qed.

Lemma lower_keep_chars (s : string) :
  all_chars lower_or_space (Py.lower (Py.keep letter_or_space s)) = true.
Proof.
  induction s as [|d s IH]; cbn; [reflexivity|].
  destruct (letter_or_space d) eqn:Hd; [|exact IH].
  cbn. fold (Py.lower (Py.keep letter_or_space s)).
  now rewrite (lower_char_of_kept d Hd), IH.
Qed.

Lemma normalized_chars (name : string) :
  all_chars lower_or_space (_normalize_name name) = true.
Proof.
  unfold _normalize_name, Py.strip.
  apply all_chars_rstrip, all_chars_lstrip, lower_keep_chars.
Qed.

Lemma lower_fixed (s : string) :
  all_chars lower_or_space s = true ->
  Py.keep letter_or_space s = s /\ Py.lower s = s.
Proof.
  induction s as [|d s IH]; cbn; [now split|].
  intros H. apply andb_true_iff in H. destruct H as [Hd Hs].
  destruct (lower_or_space_kept d Hd) as [Hk Hl].
  destruct (IH Hs) as [IH1 IH2].
  rewrite Hk. split; [now rewrite IH1|].
  unfold Py.lower in *. cbn. now rewrite Hl, IH2.
Qed.

(** X8. Normalizing a name is idempotent, and a normalized name
    consists of lowercase letters a-z and whitespace only and neither
    starts nor ends with whitespace. *)
Theorem normalize_name_idempotent :
  forall name : string,
    _normalize_name (_normalize_name name) = _normalize_name name
    /\ all_chars lower_or_space (_normalize_name name) = true
    /\ stripped (_normalize_name name).
Proof.
  intros name. split; [|split].
  - destruct (lower_fixed _ (normalized_chars name)) as [Hk Hl].
    unfold _normalize_name at 1. rewrite Hk, Hl.
    unfold _normalize_name. apply strip_idempotent.
  - apply normalized_chars.
  - unfold _normalize_name. apply strip_stripped.
Qed.

Example normalize_name_sample :
  _normalize_name "  Dela Cruz, JUAN Jr. 2nd " = "dela cruz juan jr nd".
Proof. reflexivity. Qed.

(* ------------------------------------------------------------------ *)
(** ** The extracted text *)

(** X9. The text of an OCR attempt, and with it the text extracted
    from an image, neither starts nor ends with whitespace; without
    OpenCV or without pytesseract both are empty. *)
Theorem extracted_text_is_stripped :
  forall (Image : Type) (M : Modules Image) (image : Image),
    stripped (_ocr_attempt M image)
    /\ stripped (_extract_text_from_image M image)
    /\ (cv2 M = None \/ pytesseract M = None ->
        _ocr_attempt M image = ""
        /\ _extract_text_from_image_log M image = ("", [])).
Proof.
  intros Image M image.
  assert (Hattempt : forall img, stripped (_ocr_attempt M img)).
  { intros img. unfold _ocr_attempt.
    destruct (cv2 M); [|split; discriminate].
    destruct (pytesseract M) as [tess|]; [|split; discriminate].
    destruct (three_passes tess img) as [[[t1 t2] t3]|];
      [apply strip_stripped|split; discriminate]. }
  split; [apply Hattempt|]. split.
  - unfold _extract_text_from_image, _extract_text_from_image_log.
    destruct (cv2 M) as [cv|]; [|split; discriminate].
    destruct (pytesseract M) as [tess|]; [|split; discriminate].
    destruct (Py.lt _ 5); [|apply Hattempt].
    cbn [fold_left]. unfold rotation_step.
    repeat match goal with
           | |- context [Py.gt ?a ?b] => destruct (Py.gt a b)
           end; apply Hattempt.
  - unfold _ocr_attempt, _extract_text_from_image_log.
    intros [-> | ->]; [now split|].
    destruct (cv2 M); now split.
Qed.

Lemma extracted_text_is_stripped_witness :
  _extract_text_from_image_log Sample.without_cv2 Sample.santos_card
  = ("", []).
Proof.
  apply (proj2 (proj2 (extracted_text_is_stripped
                         _ Sample.without_cv2 Sample.santos_card))).
  left. reflexivity.
Defined.

(* ------------------------------------------------------------------ *)
(** ** ID types and number formats *)

Lemma dict_get_In {V} (d : list (string * V)) (key : string) (v : V) :
  dict_get d key = Some v -> In (key, v) d.
Proof.
  induction d as [|[k w] d IH]; cbn; [discriminate|].
  destruct (String.eqb k key) eqn:E.
  - apply String.eqb_eq in E. intros [= <-]. left. now subst.
  - intros H. right. now apply IH.
Qed.

(** X10. Normalizing an ID type gives "Others" for a missing or empty
    type and a trimmed label otherwise, and, unless the result is
    empty (a type of whitespace only), normalizing the result again
    changes nothing. *)
Theorem normalize_id_type_idempotent :
  forall id_type : option string,
    let normalized := _normalize_id_type id_type in
    (Py.truthy_opt id_type = false -> normalized = "Others")
    /\ stripped normalized
    /\ (normalized <> "" ->
        _normalize_id_type (Some normalized) = normalized)
    /\ (normalized = "" ->
        exists t, id_type = Some t /\ t <> "" /\ Py.strip t = "").
Proof.
  intros id_type normalized.
  assert (Hcases :
    (Py.truthy_opt id_type = false /\ normalized = "Others")
    \/ (exists t, id_type = Some t /\ t <> ""
          /\ (In normalized ["UMID"; "PRC ID"; "National ID";
                             "Driver's License"]
              \/ (normalized = Py.strip t
                  /\ dict_get id_type_aliases (Py.strip t) = None)))).
  { subst normalized. unfold _normalize_id_type.
    destruct id_type as [t|]; [|now left].
    cbn [Py.truthy_opt]. destruct (Py.truthy t) eqn:Ht; [|now left].
    right. exists t. split; [reflexivity|].
    split; [now apply truthy_true_iff|]. cbn [negb].
    destruct (dict_get id_type_aliases (Py.strip t)) as [canonical|] eqn:E;
      [left|now right].
    apply dict_get_In in E. cbn in E.
    repeat destruct E as [E|E]; try (injection E as _ <-); cbn; tauto. }
  clearbody normalized.
  assert (Hcanonical : forall label,
    In label ["Others"; "UMID"; "PRC ID"; "National ID";
              "Driver's License"] ->
    stripped label /\ _normalize_id_type (Some label) = label
    /\ label <> "").
  { intros label Hin. cbn in Hin.
    repeat destruct Hin as [<-|Hin]; try destruct Hin;
      (split; [split; intros c [= <-]; reflexivity|]);
      (split; [reflexivity|discriminate]). }
  destruct Hcases as [[Hfalsy ->]|(t & -> & Ht & [Hin|[-> Hnone]])].
  - destruct (Hcanonical "Others") as (H1 & H2 & H3); [cbn; tauto|].
    split; [reflexivity|]. split; [exact H1|].
    split; [intros _; exact H2|]. intros H. now destruct H3.
  - destruct (Hcanonical normalized) as (H1 & H2 & H3); [cbn in *; tauto|].
    apply truthy_true_iff in Ht. cbn [Py.truthy_opt]. rewrite Ht.
    split; [discriminate|]. split; [exact H1|].
    split; [intros _; exact H2|]. intros H. now destruct H3.
  - apply truthy_true_iff in Ht. cbn [Py.truthy_opt]. rewrite Ht.
    split; [discriminate|]. split; [apply strip_stripped|]. split.
    + intros Hne. unfold _normalize_id_type.
      apply truthy_true_iff in Hne. rewrite Hne. cbn [negb].
      now rewrite strip_idempotent, Hnone.
    + intros Hempty. exists t. repeat split; [|exact Hempty].
      now apply truthy_true_iff.
Qed.

Lemma normalize_id_type_idempotent_witness :
  _normalize_id_type (Some (_normalize_id_type (Some " Drivers License ")))
  = _normalize_id_type (Some " Drivers License ")
  /\ exists t, Some "   " = Some t /\ t <> "" /\ Py.strip t = "".
Proof.
  destruct (normalize_id_type_idempotent (Some " Drivers License "))
    as (_ & _ & Hagain & _).
  destruct (normalize_id_type_idempotent (Some "   "))
    as (_ & _ & _ & Hblank).
  split; [apply Hagain; discriminate|apply Hblank; reflexivity].
Defined.

(** X11. The format check reads the digits only: removing one
    non-digit character from a claimed number, if something is left,
    does not change whether the format is valid; a number made of
    non-digits only fails against every configured type. *)
Theorem number_format_ignores_separators :
  forall (id_type a b : string) (c : ascii),
    Py.is_digit c = false ->
    (a ++ b <> "" ->
     fst (_validate_id_number_format (Some (a ++ String c b)) id_type)
     = fst (_validate_id_number_format (Some (a ++ b)) id_type))
    /\ (a ++ b = "" ->
        forall expected,
          dict_get ID_DIGIT_REQUIREMENTS id_type = Some expected ->
          fst (_validate_id_number_format (Some (a ++ String c b)) id_type)
          = false).
Proof.
  intros id_type a b c Hc.
  assert (Hdigits : digits_only (a ++ String c b) = digits_only (a ++ b)).
  { unfold digits_only. rewrite !keep_append. cbn. now rewrite Hc. }
  assert (Htruthy : Py.truthy (a ++ String c b) = true)
    by (destruct a; reflexivity).
  unfold _validate_id_number_format. rewrite Htruthy, Hdigits. cbn [negb].
  split.
  - intros Hne. apply truthy_true_iff in Hne. rewrite Hne. cbn [negb].
    destruct (dict_get ID_DIGIT_REQUIREMENTS id_type); [|reflexivity].
    destruct (String.length (digits_only (a ++ b)) =? n); reflexivity.
  - intros Hempty expected Hreq. rewrite Hreq, Hempty. cbn.
    apply dict_get_In in Hreq. cbn in Hreq.
    repeat destruct Hreq as [Hreq|Hreq];
      try (injection Hreq as _ <-; reflexivity).
    destruct Hreq.
Qed.

Lemma number_format_ignores_separators_witness :
  fst (_validate_id_number_format (Some "1234-5678-9012-3456") "National ID")
  = fst (_validate_id_number_format (Some "12345678-9012-3456") "National ID")
  /\ fst (_validate_id_number_format (Some "-") "SSS") = false.
Proof.
  split.
  - refine (proj1 (number_format_ignores_separators
                     "National ID" "1234" "5678-9012-3456" "-" eq_refl) _).
    discriminate.
  - exact (proj2 (number_format_ignores_separators "SSS" "" "" "-" eq_refl)
                 eq_refl 10 eq_refl).
Defined.

(* ------------------------------------------------------------------ *)
(** ** Counts as floats *)

Lemma float_of_nat_le (a b : nat) :
  a <= b -> (float_of_nat a <= float_of_nat b)%Q.
Proof.
  intros H. unfold float_of_nat. rewrite <- Zle_Qle. lia.
Qed.

Lemma float_of_nat_nonneg (n : nat) : (0 <= float_of_nat n)%Q.
Proof. apply (float_of_nat_le 0 n). lia. Qed.

Lemma float_of_nat_pos (n : nat) : 0 < n -> (0 < float_of_nat n)%Q.
Proof.
  intros H. unfold float_of_nat. change 0%Q with (inject_Z 0).
  rewrite <- Zlt_Qlt. lia.
Qed.

Lemma float_of_nat_inj (a b : nat) :
  (float_of_nat a == float_of_nat b)%Q -> a = b.
Proof.
  unfold float_of_nat. intros H.
  apply Nat2Z.inj. now apply inject_Z_injective.
Qed.

(** A part over the whole lies between 0 and 1. *)
Lemma fraction_bounds (a b : nat) :
  a <= b -> 0 < b -> (0 <= float_of_nat a / float_of_nat b <= 1)%Q.
Proof.
  intros Hab Hb.
  pose proof (float_of_nat_pos b Hb) as Hpos.
  pose proof (float_of_nat_nonneg a) as Hna.
  pose proof (float_of_nat_le a b Hab) as Hle.
  split.
  - apply Qle_shift_div_l; [exact Hpos|]. lra.
  - apply Qle_shift_div_r; [exact Hpos|]. lra.
Qed.

Lemma fraction_one (a b : nat) :
  0 < b -> ((float_of_nat a / float_of_nat b == 1)%Q <-> a = b).
Proof.
  intros Hb. pose proof (float_of_nat_pos b Hb) as Hpos.
  assert (Hnz : ~ (float_of_nat b == 0)%Q).
  { intros H. rewrite H in Hpos. now apply Qlt_irrefl in Hpos. }
  split.
  - intros H. apply float_of_nat_inj.
    rewrite <- (Qmult_div_r (float_of_nat a) (float_of_nat b) Hnz).
    rewrite H. lra.
  - intros ->. unfold Qdiv. now apply Qmult_inv_r.
Qed.

Lemma count_chars_le (f : ascii -> bool) (s : string) :
  Py.count_chars f s <= String.length s.
Proof.
  induction s as [|c s IH]; cbn; [lia|]. destruct (f c); lia.
Qed.

(* ------------------------------------------------------------------ *)
(** ** Rounding to binary64 *)

Lemma pow2_pos (e : Z) : (0 < Binary64.pow2 e)%Q.
Proof. unfold Binary64.pow2. apply Qpower_0_lt. reflexivity. Qed.

Lemma pow2_inverse (e : Z) :
  (Binary64.pow2 (- e) * Binary64.pow2 e == 1)%Q.
Proof.
  unfold Binary64.pow2. rewrite <- Qpower_plus by discriminate.
  replace (- e + e)%Z with 0%Z by lia. reflexivity.
Qed.

Lemma pow2_of_nonneg (e : Z) :
  (0 <= e)%Z -> (Binary64.pow2 e == inject_Z (2 ^ e))%Q.
Proof.
  intros H. unfold Binary64.pow2. now rewrite Zpower_Qpower.
Qed.

Lemma pow2_monotone (a b : Z) :
  (a <= b)%Z -> (Binary64.pow2 a <= Binary64.pow2 b)%Q.
Proof.
  intros H. unfold Binary64.pow2.
  apply Qpower_le_compat_l; [exact H|discriminate].
Qed.

Lemma round_half_even_floor (x : Q) :
  (Qfloor x <= round_half_even x <= Qfloor x + 1)%Z
  /\ (round_half_even x = (Qfloor x + 1)%Z ->
      (inject_Z (Qfloor x) + (1 # 2) <= x)%Q).
Proof.
  unfold round_half_even.
  destruct ((x - inject_Z (Qfloor x)) ?= 1 # 2)%Q eqn:E.
  - apply Qeq_alt in E.
    destruct (Z.even (Qfloor x)); (split; [lia|]); intros H; [lia|lra].
  - split; [lia|]. intros H. lia.
  - apply Qgt_alt in E. split; [lia|]. intros _. lra.
Qed.

(** Rounding to the nearest integer does not cross an integer. *)
Lemma round_half_even_le (x : Q) (k : Z) :
  (x <= inject_Z k)%Q -> (round_half_even x <= k)%Z.
Proof.
  intros H.
  pose proof (Qfloor_resp_le _ _ H) as Hf. rewrite Qfloor_Z in Hf.
  destruct (round_half_even_floor x) as ([_ Hup] & Hhalf).
  destruct (Z.eq_dec (round_half_even x) (Qfloor x + 1)) as [E|E]; [|lia].
  specialize (Hhalf E).
  assert (Hlt : (inject_Z (Qfloor x) < inject_Z k)%Q) by lra.
  rewrite <- Zlt_Qlt in Hlt. lia.
Qed.

Lemma round_half_even_ge (x : Q) (k : Z) :
  (inject_Z k <= x)%Q -> (k <= round_half_even x)%Z.
Proof.
  intros H.
  pose proof (Qfloor_resp_le _ _ H) as Hf. rewrite Qfloor_Z in Hf.
  destruct (round_half_even_floor x) as ([Hlow _] & _). lia.
Qed.

Lemma round_of_zero (q : Q) : Qnum q = 0%Z -> Binary64.round q = 0%Q.
Proof. unfold Binary64.round. now intros ->. Qed.

Lemma round_magnitude_nonneg (q : Q) :
  (0 <= q)%Q -> (0 <= Binary64.round_magnitude q)%Q.
Proof.
  intros H. unfold Binary64.round_magnitude. rewrite Qred_correct.
  pose proof (pow2_pos (Binary64.spacing_exponent q)) as He.
  pose proof (pow2_pos (- Binary64.spacing_exponent q)) as Hi.
  apply Qmult_le_0_compat; [|lra].
  change 0%Q with (inject_Z 0). rewrite <- Zle_Qle.
  apply round_half_even_ge. change (inject_Z 0) with 0%Q.
  apply Qmult_le_0_compat; lra.
Qed.

Lemma round_nonneg (q : Q) : (0 <= q)%Q -> (0 <= Binary64.round q)%Q.
Proof.
  intros H. unfold Binary64.round.
  destruct q as [[|n|n] d]; cbn [Qnum].
  - lra.
  - now apply round_magnitude_nonneg.
  - exfalso. unfold Qle in H. cbn in H. lia.
Qed.

(** The binade of a positive rational is not above it. *)
Lemma binade_lower (q : Q) :
  (0 < q)%Q -> (Binary64.pow2 (Binary64.binade q) <= q)%Q.
Proof.
  intros Hq. unfold Binary64.binade.
  destruct (Qle_bool _ q) eqn:E; [now apply Qle_bool_iff|].
  destruct q as [n d].
  assert (Hn : (0 < n)%Z) by (unfold Qlt in Hq; cbn in Hq; lia).
  cbn [Qnum Qden].
  replace (Z.log2 n - Z.log2 (Zpos d) - 1)%Z
    with (Z.log2 n - (Z.log2 (Zpos d) + 1))%Z by lia.
  unfold Binary64.pow2. rewrite Qpower_minus by discriminate.
  pose proof (Z.log2_nonneg n) as Hln.
  pose proof (Z.log2_nonneg (Zpos d)) as Hld.
  fold (Binary64.pow2 (Z.log2 n)).
  fold (Binary64.pow2 (Z.log2 (Zpos d) + 1)).
  rewrite !pow2_of_nonneg by lia. rewrite (Qmake_Qdiv n d).
  destruct (Z.log2_spec n Hn) as [Hn1 _].
  destruct (Z.log2_spec (Zpos d) eq_refl) as [_ Hd2].
  replace (Z.succ (Z.log2 (Zpos d))) with (Z.log2 (Zpos d) + 1)%Z in Hd2
    by lia.
  set (A := (2 ^ Z.log2 n)%Z) in *.
  set (B := (2 ^ (Z.log2 (Zpos d) + 1))%Z) in *.
  assert (HB : (0 < inject_Z B)%Q).
  { change 0%Q with (inject_Z 0). rewrite <- Zlt_Qlt. lia. }
  assert (HD : (0 < inject_Z (Zpos d))%Q).
  { change 0%Q with (inject_Z 0). rewrite <- Zlt_Qlt. lia. }
  apply Qle_shift_div_r; [exact HB|].
  unfold Qdiv. rewrite <- Qmult_assoc, (Qmult_comm (/ _)), Qmult_assoc.
  apply Qle_shift_div_l; [exact HD|].
  rewrite <- !inject_Z_mult, <- Zle_Qle. nia.
Qed.

(** Below [2^53] the spacing of the binary64 values is at most 1. *)
Lemma spacing_exponent_small (q : Q) :
  (0 < q)%Q -> (q < inject_Z (2 ^ 53))%Q ->
  (Binary64.spacing_exponent q <= 0)%Z.
Proof.
  intros Hq Hlt. unfold Binary64.spacing_exponent.
  assert (Binary64.binade q <= 52)%Z; [|lia].
  destruct (Z.le_gt_cases (Binary64.binade q) 52) as [H|H]; [exact H|].
  exfalso. pose proof (binade_lower q Hq) as Hlow.
  pose proof (pow2_monotone 53 (Binary64.binade q) ltac:(lia)) as Hmono.
  rewrite (pow2_of_nonneg 53) in Hmono by lia. lra.
Qed.

(** Rounding does not cross an integer below [2^53]. *)
Lemma round_le_int (q : Q) (k : Z) :
  (0 <= q)%Q -> (q <= inject_Z k)%Q -> (k < 2 ^ 53)%Z ->
  (Binary64.round q <= inject_Z k)%Q.
Proof.
  intros H0 Hk Hsmall.
  assert (Hk0 : (0 <= inject_Z k)%Q) by lra.
  unfold Binary64.round. destruct (Qnum q) as [|n|n] eqn:En.
  - exact Hk0.
  - assert (Hq : (0 < q)%Q).
    { unfold Qlt. cbn. rewrite En. lia. }
    assert (Hlt : (q < inject_Z (2 ^ 53))%Q).
    { apply Qle_lt_trans with (1 := Hk). rewrite <- Zlt_Qlt. exact Hsmall. }
    pose proof (spacing_exponent_small q Hq Hlt) as He.
    unfold Binary64.round_magnitude. rewrite Qred_correct.
    set (e := Binary64.spacing_exponent q) in *.
    pose proof (pow2_pos e) as Hpe. pose proof (pow2_pos (- e)) as Hpi.
    assert (Hscaled : (q * Binary64.pow2 (- e)
                       <= inject_Z (k * 2 ^ (- e)))%Q).
    { rewrite inject_Z_mult, <- pow2_of_nonneg by lia.
      apply Qmult_le_compat_r; [exact Hk|lra]. }
    apply round_half_even_le in Hscaled.
    rewrite Zle_Qle, inject_Z_mult, <- pow2_of_nonneg in Hscaled by lia.
    apply Qle_trans
      with (inject_Z k * Binary64.pow2 (- e) * Binary64.pow2 e)%Q.
    + apply Qmult_le_compat_r; [exact Hscaled|lra].
    + rewrite <- Qmult_assoc, pow2_inverse. lra.
  - exfalso. unfold Qle in H0. cbn in H0. rewrite En in H0. lia.
Qed.

(** The binade of a positive rational: [2^E <= q < 2^(E+1)]. *)
Lemma binade_upper (q : Q) :
  (0 < q)%Q -> (q < Binary64.pow2 (Binary64.binade q + 1))%Q.
Proof.
  intros Hq. unfold Binary64.binade.
  destruct (Qle_bool _ q) eqn:E.
  - destruct q as [n d].
    assert (Hn : (0 < n)%Z) by (unfold Qlt in Hq; cbn in Hq; lia).
    cbn [Qnum Qden].
    replace (Z.log2 n - Z.log2 (Zpos d) + 1)%Z
      with (Z.log2 n + 1 - Z.log2 (Zpos d))%Z by lia.
    unfold Binary64.pow2. rewrite Qpower_minus by discriminate.
    pose proof (Z.log2_nonneg n) as Hln.
    pose proof (Z.log2_nonneg (Zpos d)) as Hld.
    fold (Binary64.pow2 (Z.log2 n + 1)).
    fold (Binary64.pow2 (Z.log2 (Zpos d))).
    rewrite !pow2_of_nonneg by lia. rewrite (Qmake_Qdiv n d).
    destruct (Z.log2_spec n Hn) as [_ Hn2].
    destruct (Z.log2_spec (Zpos d) eq_refl) as [Hd1 _].
    replace (Z.succ (Z.log2 n)) with (Z.log2 n + 1)%Z in Hn2 by lia.
    set (A := (2 ^ (Z.log2 n + 1))%Z) in *.
    set (B := (2 ^ Z.log2 (Zpos d))%Z) in *.
    assert (HB : (0 < inject_Z B)%Q).
    { change 0%Q with (inject_Z 0). rewrite <- Zlt_Qlt. lia. }
    assert (HD : (0 < inject_Z (Zpos d))%Q).
    { change 0%Q with (inject_Z 0). rewrite <- Zlt_Qlt. lia. }
    apply Qlt_shift_div_r; [exact HD|].
    unfold Qdiv. rewrite <- Qmult_assoc, (Qmult_comm (/ _)), Qmult_assoc.
    apply Qlt_shift_div_l; [exact HB|].
    rewrite <- !inject_Z_mult, <- Zlt_Qlt. nia.
  - apply (ge_false_iff q) in E.
    replace (Z.log2 (Qnum q) - Z.log2 (Zpos (Qden q)) - 1 + 1)%Z
      with (Z.log2 (Qnum q) - Z.log2 (Zpos (Qden q)))%Z by lia.
    exact E.
Qed.

Lemma pow2_plus (a b : Z) :
  (Binary64.pow2 (a + b) == Binary64.pow2 a * Binary64.pow2 b)%Q.
Proof. unfold Binary64.pow2. apply Qpower_plus. discriminate. Qed.

(** A rounded value is [m * 2^e] with [m] of at most 53 bits and [e]
    not below the least exponent. *)
Lemma round_representable (q : Q) :
  (0 < q)%Q ->
  exists m e : Z,
    (Binary64.round q == inject_Z m * Binary64.pow2 e)%Q
    /\ (m <= 2 ^ 53)%Z /\ (-1074 <= e)%Z.
Proof.
  intros Hq. unfold Binary64.round.
  destruct (Qnum q) as [|n|n] eqn:En;
    try (exfalso; unfold Qlt in Hq; cbn in Hq; rewrite En in Hq; lia).
  unfold Binary64.round_magnitude.
  set (e := Binary64.spacing_exponent q).
  exists (round_half_even (q * Binary64.pow2 (- e))), e.
  split; [apply Qred_correct|]. split.
  - apply round_half_even_le.
    pose proof (binade_upper q Hq) as Hup.
    assert (He : (Binary64.binade q + 1 <= 53 + e)%Z)
      by (subst e; unfold Binary64.spacing_exponent; lia).
    apply pow2_monotone in He. rewrite (pow2_plus 53 e) in He.
    rewrite (pow2_of_nonneg 53) in He by lia.
    pose proof (pow2_pos (- e)) as Hpi.
    apply Qle_trans
      with (inject_Z (2 ^ 53) * Binary64.pow2 e * Binary64.pow2 (- e))%Q.
    + apply Qmult_le_compat_r; lra.
    + rewrite <- Qmult_assoc, (Qmult_comm (Binary64.pow2 e)), pow2_inverse.
      lra.
  - subst e. unfold Binary64.spacing_exponent. lia.
Qed.

(** Rounding does not cross a binary64 value. *)
Lemma round_le_representable (q : Q) (M E : Z) :
  (0 <= q)%Q -> (q <= inject_Z M * Binary64.pow2 E)%Q ->
  (M <= 2 ^ 53)%Z -> (-1074 <= E)%Z ->
  (Binary64.round q <= inject_Z M * Binary64.pow2 E)%Q.
Proof.
  intros H0 Hv HM HE.
  unfold Binary64.round. destruct (Qnum q) as [|n|n] eqn:En.
  - lra.
  - assert (Hq : (0 < q)%Q).
    { unfold Qlt. cbn. rewrite En. lia. }
    unfold Binary64.round_magnitude. rewrite Qred_correct.
    pose proof (binade_lower q Hq) as Hlow.
    assert (Hexp : (Binary64.spacing_exponent q <= E)%Z
                   \/ (E < Binary64.spacing_exponent q
                       /\ Binary64.binade q
                          = Binary64.spacing_exponent q + 52)%Z)
      by (unfold Binary64.spacing_exponent; lia).
    set (e := Binary64.spacing_exponent q) in *.
    pose proof (pow2_pos e) as Hpe. pose proof (pow2_pos (- e)) as Hpi.
    pose proof (pow2_pos E) as HpE.
    destruct Hexp as [Hle|[Hlt Hb]].
    + assert (Hscaled : (q * Binary64.pow2 (- e)
                         <= inject_Z (M * 2 ^ (E - e)))%Q).
      { rewrite inject_Z_mult, <- pow2_of_nonneg by lia.
        replace (E - e)%Z with (E + - e)%Z by lia.
        rewrite pow2_plus, Qmult_assoc.
        apply Qmult_le_compat_r; lra. }
      apply round_half_even_le in Hscaled.
      rewrite Zle_Qle, inject_Z_mult, <- pow2_of_nonneg in Hscaled by lia.
      replace (E - e)%Z with (E + - e)%Z in Hscaled by lia.
      rewrite pow2_plus in Hscaled.
      apply Qle_trans
        with (inject_Z M * (Binary64.pow2 E * Binary64.pow2 (- e))
              * Binary64.pow2 e)%Q.
      * apply Qmult_le_compat_r; [exact Hscaled|lra].
      * rewrite <- !Qmult_assoc, pow2_inverse. lra.
    + rewrite Hb in Hlow.
      assert (Htop : (inject_Z M * Binary64.pow2 E
                      <= Binary64.pow2 (e + 52))%Q).
      { apply Qle_trans with (inject_Z (2 ^ 53) * Binary64.pow2 E)%Q.
        - apply Qmult_le_compat_r; [|lra]. now rewrite <- Zle_Qle.
        - rewrite <- pow2_of_nonneg, <- pow2_plus by lia.
          apply pow2_monotone. lia. }
      assert (Hscaled : (q * Binary64.pow2 (- e) <= inject_Z (2 ^ 52))%Q).
      { rewrite <- pow2_of_nonneg by lia.
        apply Qle_trans
          with (Binary64.pow2 (e + 52) * Binary64.pow2 (- e))%Q.
        - apply Qmult_le_compat_r; lra.
        - rewrite <- pow2_plus. apply pow2_monotone. lia. }
      apply round_half_even_le in Hscaled.
      rewrite Zle_Qle, <- pow2_of_nonneg in Hscaled by lia.
      apply Qle_trans with (Binary64.pow2 52 * Binary64.pow2 e)%Q.
      * apply Qmult_le_compat_r; [exact Hscaled|lra].
      * rewrite <- pow2_plus.
        replace (52 + e)%Z with (e + 52)%Z by lia. lra.
  - exfalso. unfold Qle in H0. cbn in H0. rewrite En in H0. lia.
Qed.

(** A product with a factor in the unit interval rounds to at most the
    rounded other factor. *)
Lemma mul_le_of_int (r : Q) (n : nat) :
  (0 <= r <= 1)%Q ->
  (Binary64.mul r (Binary64.of_int n) <= Binary64.of_int n)%Q.
Proof.
  intros [Hr0 Hr1]. unfold Binary64.mul.
  pose proof (float_of_nat_nonneg n) as Hn. unfold float_of_nat in Hn.
  assert (Hc : (0 <= Binary64.of_int n)%Q)
    by (unfold Binary64.of_int; now apply round_nonneg).
  assert (Hprod : (r * Binary64.of_int n <= Binary64.of_int n)%Q).
  { apply Qle_trans with (1 * Binary64.of_int n)%Q; [|lra].
    now apply Qmult_le_compat_r. }
  assert (Hprod0 : (0 <= r * Binary64.of_int n)%Q)
    by now apply Qmult_le_0_compat.
  destruct n as [|n].
  - change (Binary64.of_int 0) with 0%Q in *.
    assert (Hz : (Binary64.round (r * 0) <= inject_Z 0 * Binary64.pow2 0)%Q).
    { apply round_le_representable; [exact Hprod0| |lia|lia].
      change (inject_Z 0 * Binary64.pow2 0)%Q with (0 * 1)%Q. lra. }
    change (inject_Z 0 * Binary64.pow2 0)%Q with (0 * 1)%Q in Hz. lra.
  - assert (Hpos : (0 < inject_Z (Z.of_nat (S n)))%Q).
    { change 0%Q with (inject_Z 0). rewrite <- Zlt_Qlt. lia. }
    destruct (round_representable _ Hpos) as (m & e & Hv & Hm & He).
    fold (Binary64.of_int (S n)) in Hv.
    rewrite Hv at 2.
    apply round_le_representable; [exact Hprod0| |exact Hm|exact He].
    rewrite <- Hv. exact Hprod.
Qed.

(* ------------------------------------------------------------------ *)
(** ** The quality score of a text *)

Lemma div_int_unit (a b : nat) :
  a <= b -> 0 < b ->
  (0 <= Binary64.div_int a b <= 1)%Q.
Proof.
  intros Hab Hb. unfold Binary64.div_int.
  destruct (fraction_bounds a b Hab Hb) as [H0 H1].
  unfold float_of_nat in H0, H1.
  split; [now apply round_nonneg|].
  apply (round_le_int _ 1); [exact H0|exact H1|reflexivity].
Qed.

Lemma of_int_bounds (n : nat) :
  (Z.of_nat n < 2 ^ 53)%Z ->
  (0 <= Binary64.of_int n <= float_of_nat n)%Q.
Proof.
  intros Hn. unfold Binary64.of_int, float_of_nat.
  pose proof (float_of_nat_nonneg n) as H0. unfold float_of_nat in H0.
  split; [now apply round_nonneg|].
  apply round_le_int; [exact H0|apply Qle_refl|exact Hn].
Qed.

(** X12. The quality score of a text is 0 when the text has fewer
    than 10 characters or no alphabetic character; it is never
    negative, and it is at most the number of tokens of at least three
    characters as binary64 holds it, which is the number itself below
    2^53. *)
Theorem text_quality_score_bounds :
  forall text : string,
    (String.length text < 10 -> _text_quality_score text = 0%Q)
    /\ (Py.count_chars Py.is_alpha text = 0 ->
        (_text_quality_score text == 0)%Q)
    /\ (0 <= _text_quality_score text)%Q
    /\ (_text_quality_score text
        <= Binary64.of_int (List.length (scored_words text)))%Q
    /\ ((Z.of_nat (List.length (scored_words text)) < 2 ^ 53)%Z ->
        (_text_quality_score text
         <= float_of_nat (List.length (scored_words text)))%Q).
Proof.
  intros text. unfold _text_quality_score, scored_words.
  set (words := filter (fun w => 3 <=? String.length w) (Py.split text)).
  pose proof (float_of_nat_nonneg (List.length words)) as Hw.
  assert (Hc : (0 <= Binary64.of_int (List.length words))%Q)
    by (unfold Binary64.of_int; apply round_nonneg; exact Hw).
  destruct (negb (Py.truthy text) || (String.length text <? 10)) eqn:E.
  - repeat split; try reflexivity; try lra.
  - apply orb_false_iff in E. destruct E as [_ E].
    apply Nat.ltb_ge in E.
    assert (Hz : (String.length text =? 0) = false)
      by (apply Nat.eqb_neq; lia).
    rewrite Hz.
    destruct (div_int_unit (Py.count_chars Py.is_alpha text)
                (String.length text) (count_chars_le _ _)) as [Hr0 Hr1];
      [lia|].
    pose proof (mul_le_of_int _ (List.length words) (conj Hr0 Hr1))
      as Hupper.
    split; [intros H; lia|]. split; [|split; [|split]].
    + intros ->.
      assert (Hd : Binary64.div_int 0 (String.length text) = 0%Q)
        by (unfold Binary64.div_int; apply round_of_zero; reflexivity).
      rewrite Hd. unfold Binary64.mul.
      rewrite round_of_zero by reflexivity. reflexivity.
    + unfold Binary64.mul. apply round_nonneg.
      now apply Qmult_le_0_compat.
    + exact Hupper.
    + intros Hsmall.
      destruct (of_int_bounds (List.length words) Hsmall) as [_ Hc1].
      lra.
Qed.

Lemma text_quality_score_bounds_witness :
  _text_quality_score "JUAN CRUZ" = 0%Q
  /\ (_text_quality_score "1234-5678-9012" == 0)%Q
  /\ (_text_quality_score "REPUBLIKA NG PILIPINAS" <= 2)%Q.
Proof.
  destruct (text_quality_score_bounds "JUAN CRUZ") as (Hshort & _).
  destruct (text_quality_score_bounds "1234-5678-9012") as (_ & Hdigits & _).
  destruct (text_quality_score_bounds "REPUBLIKA NG PILIPINAS")
    as (_ & _ & _ & _ & Hupper).
  split; [apply Hshort; cbn; lia|]. split; [apply Hdigits; reflexivity|].
  apply Hupper. vm_compute. reflexivity.
Defined.

(* ------------------------------------------------------------------ *)
(** ** Matched and unmatched tokens *)

Lemma filter_partition_length {A} (f : A -> bool) (l : list A) :
  List.length (filter f l) + List.length (filter (fun x => negb (f x)) l)
  = List.length l.
Proof.
  induction l as [|x l IH]; cbn; [reflexivity|].
  destruct (f x); cbn; lia.
Qed.

Lemma match_ratio_bounds ratio ocr_text user_name :
  (0 <= match_ratio_of ratio ocr_text user_name <= 1)%Q.
Proof.
  rewrite match_ratio_of_count.
  destruct (user_tokens_of user_name) as [|t ts] eqn:E; [lra|].
  rewrite <- E. apply fraction_bounds.
  - pose proof (filter_partition_length
                  (token_matched ratio (ocr_tokens_of ocr_text))
                  (user_tokens_of user_name)). lia.
  - rewrite E. cbn. lia.
Qed.

(** X13. The loop over the claimed tokens sorts every token into
    exactly one of its two lists, keeping the order; so [match_ratio]
    lies between 0 and 1, and for a name with a token it is 1 exactly
    when no token is left unmatched. *)
Theorem claimed_tokens_are_partitioned :
  forall (ratio : string -> string -> Q) (ocr_text user_name : string),
    let user_tokens := user_tokens_of user_name in
    let ocr_tokens := ocr_tokens_of ocr_text in
    let matched := fst (match_tokens ratio ocr_tokens user_tokens) in
    let unmatched := snd (match_tokens ratio ocr_tokens user_tokens) in
    map fst matched = filter (token_matched ratio ocr_tokens) user_tokens
    /\ unmatched
       = filter (fun t => negb (token_matched ratio ocr_tokens t)) user_tokens
    /\ List.length matched + List.length unmatched = List.length user_tokens
    /\ (0 <= match_ratio_of ratio ocr_text user_name <= 1)%Q
    /\ (user_tokens <> [] ->
        ((match_ratio_of ratio ocr_text user_name == 1)%Q
         <-> unmatched = [])).
Proof.
  intros ratio ocr_text user_name user_tokens ocr_tokens matched unmatched.
  subst matched unmatched.
  pose proof (filter_partition_length (token_matched ratio ocr_tokens)
                                      user_tokens) as Hpart.
  split; [apply match_tokens_matched|].
  split; [apply match_tokens_unmatched|].
  split; [now rewrite matched_count, match_tokens_unmatched|].
  split; [apply match_ratio_bounds|].
  intros Hne. rewrite match_ratio_of_count. fold user_tokens ocr_tokens.
  rewrite match_tokens_unmatched.
  destruct user_tokens as [|t ts] eqn:E; [contradiction|]. rewrite <- E in *.
  rewrite fraction_one by (rewrite E; cbn; lia).
  split.
  - intros H. apply length_zero_iff_nil. lia.
  - intros H. rewrite H in Hpart. cbn in Hpart. lia.
Qed.

Lemma claimed_tokens_are_partitioned_witness :
  (match_ratio_of Sample.indel_ratio "CRUZ, DELA JUAN" "Juan Dela Cruz" == 1)%Q.
Proof.
  destruct (claimed_tokens_are_partitioned
              Sample.indel_ratio "CRUZ, DELA JUAN" "Juan Dela Cruz")
    as (_ & _ & _ & _ & Hone).
  apply Hone; [vm_compute; discriminate|vm_compute; reflexivity].
Defined.

(* ------------------------------------------------------------------ *)
(** ** Maxima *)

Lemma fold_max2_spec (rest : list Q) :
  forall x : Q,
    let r := fold_left Py.max2 rest x in
    (x <= r)%Q /\ (forall y, In y rest -> (y <= r)%Q)
    /\ (r = x \/ In r rest).
Proof.
  induction rest as [|z rest IH]; intros x; cbn [fold_left].
  - repeat split; [apply Qle_refl|intros y []|now left].
  - specialize (IH (Py.max2 x z)). cbv zeta in IH.
    destruct IH as (H1 & H2 & H3).
    destruct (max2_spec x z) as (Hx & Hz & Hcase).
    split; [lra|]. split.
    + intros y [<-|Hy]; [lra|now apply H2].
    + destruct H3 as [->|H3]; [|right; now right].
      destruct Hcase as [->| ->]; [now left|right; now left].
Qed.

(** [max(xs, default=d)] is the largest element of a non-empty [xs]. *)
Lemma max_default_spec (d : Q) (xs : list Q) :
  (xs = [] -> Py.max_default d xs = d)
  /\ (forall y, In y xs -> (y <= Py.max_default d xs)%Q)
  /\ (xs <> [] -> In (Py.max_default d xs) xs).
Proof.
  destruct xs as [|x rest]; cbn [Py.max_default].
  - repeat split; [intros y []|congruence].
  - destruct (fold_max2_spec rest x) as (H1 & H2 & H3).
    split; [discriminate|]. split.
    + intros y [<-|Hy]; [exact H1|now apply H2].
    + intros _. destruct H3 as [->|H3]; [now left|now right].
Qed.

(** The maximum reaches a threshold above the default exactly when an
    element does. *)
Lemma max_default_reaches (d th : Q) (xs : list Q) :
  (d < th)%Q ->
  ((th <= Py.max_default d xs)%Q <-> exists y, In y xs /\ (th <= y)%Q).
Proof.
  intros Hd. destruct (max_default_spec d xs) as (Hnil & Hub & Hin).
  split.
  - intros H. destruct xs as [|x rest].
    + rewrite Hnil in H by reflexivity. lra.
    + exists (Py.max_default d (x :: rest)). split; [|exact H].
      apply Hin. discriminate.
  - intros (y & Hy & Hth). specialize (Hub y Hy). lra.
Qed.

(* ------------------------------------------------------------------ *)
(** ** How a token is matched *)

Lemma prefix_reflexive (s : string) : String.prefix s s = true.
Proof.
  induction s as [|c s IH]; [reflexivity|]. cbn.
  destruct (ascii_dec c c); [exact IH|congruence].
Qed.

Lemma any_startswith_iff (ocr_tokens : list string) (token : string) :
  any_startswith ocr_tokens token = true
  <-> exists t, In t ocr_tokens /\ Py.startswith t token = true.
Proof. unfold any_startswith. apply existsb_exists. Qed.

Lemma member_startswith (ocr_tokens : list string) (token : string) :
  Py.mem token ocr_tokens = true -> any_startswith ocr_tokens token = true.
Proof.
  intros H. apply mem_In in H. apply any_startswith_iff.
  exists token. split; [exact H|apply prefix_reflexive].
Qed.

(** X14. A claimed token of one character is matched exactly when
    some OCR token starts with it; a claimed token of at least three
    characters is matched exactly when some OCR token starts with it
    or is similar to it with a ratio of at least 0.82. *)
Theorem token_matched_by_prefix_or_similarity :
  forall (ratio : string -> string -> Q) (ocr_tokens : list string)
         (token : string),
    (String.length token = 1 ->
     (token_matched ratio ocr_tokens token = true
      <-> exists t, In t ocr_tokens /\ Py.startswith t token = true))
    /\ (3 <= String.length token ->
        (token_matched ratio ocr_tokens token = true
         <-> (exists t, In t ocr_tokens /\ Py.startswith t token = true)
             \/ (exists t, In t ocr_tokens /\ (0.82 <= ratio token t)%Q))).
Proof.
  intros ratio ocr_tokens token.
  pose proof (member_startswith ocr_tokens token) as Hmem.
  unfold token_matched, match_token. split; intros Hlen.
  - rewrite Hlen. cbn [Nat.eqb]. rewrite <- any_startswith_iff.
    destruct (Py.mem token ocr_tokens).
    + split; [intros _; now apply Hmem|reflexivity].
    + destruct (any_startswith ocr_tokens token); split; congruence.
  - assert (H1 : (String.length token =? 1) = false)
      by (apply Nat.eqb_neq; lia).
    apply Nat.leb_le in Hlen. rewrite H1, Hlen.
    rewrite <- any_startswith_iff.
    assert (Hfuzzy :
      Py.ge (Py.max_default 0 (map (ratio token) ocr_tokens)) 0.82 = true
      <-> exists t, In t ocr_tokens /\ (0.82 <= ratio token t)%Q).
    { rewrite ge_true_iff, max_default_reaches by lra. split.
      - intros (y & Hy & Hth). apply in_map_iff in Hy.
        destruct Hy as (t & <- & Ht). now exists t.
      - intros (t & Ht & Hth). exists (ratio token t).
        split; [now apply in_map|exact Hth]. }
    destruct (Py.mem token ocr_tokens).
    + split; [intros _; left; now apply Hmem|reflexivity].
    + destruct (any_startswith ocr_tokens token).
      * split; [now left|reflexivity].
      * destruct (Py.ge _ 0.82).
        -- split; [intros _; right; now apply Hfuzzy|reflexivity].
        -- split; [discriminate|].
           intros [H|H]; [discriminate|]. now apply Hfuzzy.
Qed.

Lemma token_matched_by_prefix_or_similarity_witness :
  token_matched Sample.indel_ratio ["dela"; "kruz"] "d" = true
  /\ token_matched Sample.indel_ratio ["santos"; "marla"] "maria" = false.
Proof.
  destruct (token_matched_by_prefix_or_similarity
              Sample.indel_ratio ["dela"; "kruz"] "d") as (Hone & _).
  destruct (token_matched_by_prefix_or_similarity
              Sample.indel_ratio ["santos"; "marla"] "maria") as (_ & Hlong).
  split.
  - apply (Hone eq_refl). exists "dela". split; [now left|reflexivity].
  - apply not_true_iff_false. intros H.
    apply (Hlong ltac:(cbn; lia)) in H.
    destruct H as [(t & Hin & Hp)|(t & Hin & Hr)];
      cbn in Hin; destruct Hin as [<-|[<-|[]]];
      vm_compute in Hp || vm_compute in Hr;
      first [discriminate | now apply Hr].
Defined.

(* ------------------------------------------------------------------ *)
(** ** The confidence of the name matcher *)

Lemma max_similarity_bounds ratio ocr_text user_name :
  ratio_in_unit_interval ratio ->
  (0 <= max_similarity_of ratio ocr_text user_name <= 1)%Q.
Proof.
  intros Hunit.
  destruct (max_similarity_is_largest ratio ocr_text user_name)
    as (H0 & _ & [->|(line & _ & _ & ->)]).
  - lra.
  - apply Hunit.
Qed.

Lemma equality_ratio_in_unit_interval : ratio_in_unit_interval equality_ratio.
Proof.
  intros a b. unfold equality_ratio. destruct (String.eqb a b); lra.
Qed.

(** X15. With a similarity taking its values between 0 and 1, or
    without the similarity library, the confidence the name matcher
    reports lies between 0 and 1. *)
Theorem match_name_confidence_bounds :
  forall (L : option (string -> string -> Q)) (ocr_text user_name : string),
    (forall ratio, L = Some ratio -> ratio_in_unit_interval ratio) ->
    (0 <= snd (fst (_match_name L ocr_text user_name)) <= 1)%Q.
Proof.
  intros L ocr_text user_name Hunit. unfold _match_name.
  destruct (negb (Py.truthy user_name)); [cbn; lra|].
  destruct (negb (Py.truthy ocr_text) || _); [cbn; lra|].
  destruct L as [ratio|]; [|cbn; lra].
  destruct (user_tokens_of user_name); [cbn; lra|].
  pose proof (match_ratio_bounds ratio ocr_text user_name) as Hr.
  pose proof (max_similarity_bounds ratio ocr_text user_name
                (Hunit ratio eq_refl)) as Hs.
  destruct (max2_spec (match_ratio_of ratio ocr_text user_name)
                      (max_similarity_of ratio ocr_text user_name))
    as (_ & _ & Hcase).
  destruct (Py.ge _ 0.60 || Py.ge _ 0.65); cbn [fst snd];
    destruct Hcase as [->| ->]; lra.
Qed.

Lemma match_name_confidence_bounds_witness :
  (0 <= snd (fst (_match_name (Some equality_ratio)
                              "REPUBLIKA NG PILIPINAS" "Maria Santos"))
   <= 1)%Q.
Proof.
  apply match_name_confidence_bounds.
  intros ratio [= <-]. apply equality_ratio_in_unit_interval.
Defined.

(* ------------------------------------------------------------------ *)
(** ** A name that is on the card *)

(** X16. When every token of the claimed name is among the tokens of
    the OCR text (at least 5 characters after trimming), whatever their
    order, [match_ratio] is 1 and the matcher reports a match; in
    particular a name matches itself. *)
Theorem name_on_card_matches :
  forall (ratio : string -> string -> Q) (ocr_text user_name : string),
    5 <= String.length (Py.strip ocr_text) ->
    user_tokens_of user_name <> [] ->
    ((forall t, In t (user_tokens_of user_name) ->
                In t (ocr_tokens_of ocr_text)) ->
     (match_ratio_of ratio ocr_text user_name == 1)%Q
     /\ fst (fst (_match_name (Some ratio) ocr_text user_name)) = true)
    /\ (ocr_text = user_name ->
        fst (fst (_match_name (Some ratio) ocr_text user_name)) = true).
Proof.
  intros ratio ocr_text user_name Hocr Htokens.
  assert (Hgen :
    (forall t, In t (user_tokens_of user_name) ->
               In t (ocr_tokens_of ocr_text)) ->
    (match_ratio_of ratio ocr_text user_name == 1)%Q
    /\ fst (fst (_match_name (Some ratio) ocr_text user_name)) = true).
  { intros Hall.
    assert (Hone : (match_ratio_of ratio ocr_text user_name == 1)%Q).
    { rewrite match_ratio_of_count.
      destruct (user_tokens_of user_name) as [|t ts] eqn:E;
        [contradiction|]. rewrite <- E in *.
      apply fraction_one; [rewrite E; cbn; lia|].
      f_equal. apply forallb_filter_id. apply forallb_forall.
      intros x Hx. unfold token_matched, match_token.
      now rewrite (proj2 (mem_In x _) (Hall x Hx)). }
    split; [exact Hone|].
    unfold _match_name.
    assert (Hname : Py.truthy user_name = true).
    { destruct user_name; [now destruct Htokens|reflexivity]. }
    rewrite Hname, (strip_empty_length _ Hocr).
    apply Nat.ltb_ge in Hocr. rewrite Hocr. cbn [negb orb].
    destruct (user_tokens_of user_name); [contradiction|].
    assert (Hge : Py.ge (match_ratio_of ratio ocr_text user_name) 0.60
                  = true).
    { apply ge_true_iff. rewrite Hone. lra. }
    rewrite Hge. reflexivity. }
  split; [exact Hgen|].
  intros ->. apply Hgen. intros t Ht.
  unfold ocr_tokens_of. apply nodup_In. exact Ht.
Qed.

Lemma name_on_card_matches_witness :
  fst (fst (_match_name (Some Sample.indel_ratio)
                        "Juan Dela Cruz" "Juan Dela Cruz")) = true.
Proof.
  refine (proj2 (name_on_card_matches Sample.indel_ratio
                   "Juan Dela Cruz" "Juan Dela Cruz" _ _) eq_refl).
  - vm_compute. lia.
  - vm_compute. discriminate.
Defined.

(* ------------------------------------------------------------------ *)
(** ** An unreadable card *)

(** X17. A text of fewer than 5 characters after trimming is
    inconclusive for a claimed name: the matcher reports a match with
    confidence 0.2, with or without the similarity library. So without
    pytesseract a claimed name is never rejected: the Name Match check
    passes and the name-mismatch test is negative. *)
Theorem unreadable_text_is_inconclusive :
  (forall (L : option (string -> string -> Q)) (ocr_text user_name : string),
     user_name <> "" ->
     String.length (Py.strip ocr_text) < 5 ->
     _match_name L ocr_text user_name = (true, 0.2%Q, ocr_unavailable))
  /\ (forall (Image : Type) (M : Modules Image) (image : Image)
             (user_name : string),
        pytesseract M = None ->
        user_name <> "" ->
        name_match_for M image (Some user_name)
        = Some (true, 0.2%Q, ocr_unavailable)
        /\ name_mismatch (name_match_for M image (Some user_name)) = false).
Proof.
  assert (Hshort : forall L ocr_text user_name,
    user_name <> "" ->
    String.length (Py.strip ocr_text) < 5 ->
    _match_name L ocr_text user_name = (true, 0.2%Q, ocr_unavailable)).
  { intros L ocr_text user_name Hname Hlen. unfold _match_name.
    apply truthy_true_iff in Hname. rewrite Hname. cbn [negb].
    apply Nat.ltb_lt in Hlen. rewrite Hlen, orb_true_r. reflexivity. }
  split; [exact Hshort|].
  intros Image M image user_name Htess Hname.
  assert (Htext : _extract_text_from_image M image = "").
  { unfold _extract_text_from_image, _extract_text_from_image_log.
    rewrite Htess. now destruct (cv2 M). }
  unfold name_match_for.
  rewrite (proj2 (truthy_true_iff user_name) Hname), Htext.
  rewrite Hshort by (assumption || (cbn; lia)).
  split; reflexivity.
Qed.

Lemma unreadable_text_is_inconclusive_witness :
  _match_name (Some Sample.indel_ratio) "  J C " "Maria Santos"
  = (true, 0.2%Q, ocr_unavailable)
  /\ name_match_for
       {| cv2 := Some (Sample.sample_cv2 (Sample.serving Sample.santos_card));
          pytesseract := None; Levenshtein := Some Sample.indel_ratio |}
       Sample.santos_card (Some "Juan Dela Cruz")
     = Some (true, 0.2%Q, ocr_unavailable).
Proof.
  destruct unreadable_text_is_inconclusive as [Hshort Hmissing].
  split.
  - apply Hshort; [discriminate|vm_compute; lia].
  - apply Hmissing; [reflexivity|discriminate].
Defined.

(* ------------------------------------------------------------------ *)
(** ** The confidence of a name rejection *)

Lemma mismatch_below_thresholds L ocr_text user_name :
  fst (fst (_match_name L ocr_text user_name)) = false ->
  (snd (fst (_match_name L ocr_text user_name)) < 0.65)%Q.
Proof.
  unfold _match_name.
  destruct (negb (Py.truthy user_name)); [discriminate|].
  destruct (negb (Py.truthy ocr_text) || _); [discriminate|].
  destruct L as [ratio|]; [|discriminate].
  destruct (user_tokens_of user_name); [discriminate|].
  destruct (Py.ge (match_ratio_of ratio ocr_text user_name) 0.60) eqn:E1;
    [discriminate|].
  destruct (Py.ge (max_similarity_of ratio ocr_text user_name) 0.65) eqn:E2;
    [discriminate|].
  intros _. cbn [orb fst snd].
  apply ge_false_iff in E1. apply ge_false_iff in E2.
  destruct (max2_spec (match_ratio_of ratio ocr_text user_name)
                      (max_similarity_of ratio ocr_text user_name))
    as (_ & _ & [->| ->]); lra.
Qed.

(** X18. When the name-mismatch rule decides, the matcher's
    confidence lies above 0.2 and below 0.65, so the confidence of the
    rejection is 0.85 plus a tenth of it, strictly between 0.87 and
    0.915: the bounds 0.75 and 0.96 of the formula never apply. *)
Theorem name_rejection_confidence :
  forall (Image : Type) (M : Modules Image) (cv : Cv2 Image)
         (image : Image) (image_url : string)
         (id_type user_name id_number : option string),
    cv2 M = Some cv ->
    fetch_decode cv image_url = Some image ->
    first_match (measure M cv image) (_normalize_id_type id_type) id_number
                (name_match_for M image user_name)
    = name_mismatch_branch ->
    exists r similarity,
      analyze_id_image M image_url id_type user_name id_number = Returned r
      /\ status r = Invalid
      /\ (exists is_match detail,
            name_match_for M image user_name
            = Some (is_match, similarity, detail))
      /\ (0.2 < similarity < 0.65)%Q
      /\ (confidence r == 0.85 + similarity * 0.1)%Q
      /\ (0.87 < confidence r < 0.915)%Q.
Proof.
  intros Image M cv image url id_type user_name id_number Hcv Hfetch Hfired.
  pose proof (first_match_holds (measure M cv image)
                (_normalize_id_type id_type) id_number
                (name_match_for M image user_name)) as Hholds.
  rewrite Hfired in Hholds. cbn [condition] in Hholds.
  assert (Hsim : exists is_match similarity detail,
    name_match_for M image user_name = Some (is_match, similarity, detail)
    /\ (0.2 < similarity < 0.65)%Q).
  { unfold name_match_for in *.
    destruct user_name as [name|]; [|discriminate].
    destruct (Py.truthy name); [|discriminate].
    pose proof (mismatch_below_thresholds (Levenshtein M)
                  (_extract_text_from_image M image) name) as Hlow.
    destruct (_match_name (Levenshtein M)
                          (_extract_text_from_image M image) name)
      as [[is_match similarity] detail].
    cbn in Hholds, Hlow. apply andb_true_iff in Hholds.
    destruct Hholds as [Hno Hgt]. apply negb_true_iff in Hno.
    apply gt_true_iff in Hgt.
    exists is_match, similarity, detail. split; [reflexivity|].
    split; [exact Hgt|now apply Hlow]. }
  destruct Hsim as (is_match & similarity & detail & Hfound & Hlo & Hhi).
  exists (decide (measure M cv image) (_normalize_id_type id_type) id_number
                 (name_match_for M image user_name)), similarity.
  split; [now apply analyze_id_image_decides|].
  rewrite decide_outcome, Hfired.
  split; [reflexivity|]. split; [now exists is_match, detail|].
  split; [split; assumption|].
  cbn [outcome branch_result result confidence]. rewrite Hfound.
  cbn [mismatch_similarity].
  destruct (max2_spec 0.75 (0.85 + similarity * 0.1)) as (_ & _ & [E|E]).
  - destruct (max2_cases 0.75 (0.85 + similarity * 0.1)) as [[_ H]|[H _]].
    + lra.
    + rewrite H.
      destruct (min2_spec 0.96 (0.85 + similarity * 0.1))
        as (_ & _ & [E'|E']); rewrite E'.
      * destruct (min2_spec 0.96 (0.85 + similarity * 0.1)) as (_ & H2 & _).
        rewrite E' in H2. lra.
      * split; [reflexivity|lra].
  - rewrite E.
    destruct (min2_spec 0.96 (0.85 + similarity * 0.1))
      as (_ & H2 & [E'|E']); rewrite E' in *.
    + lra.
    + split; [reflexivity|lra].
Qed.

Lemma name_rejection_confidence_witness :
  exists r,
    analyze_id_image (Sample.full Sample.santos_card)
      "https://example.org/id.jpg" (Some "National ID")
      (Some "Juan Dela Cruz") None = Returned r
    /\ (0.87 < confidence r < 0.915)%Q.
Proof.
  destruct (name_rejection_confidence
              _ (Sample.full Sample.santos_card)
              (Sample.sample_cv2 (Sample.serving Sample.santos_card))
              Sample.santos_card "https://example.org/id.jpg"
              (Some "National ID") (Some "Juan Dela Cruz") None
              eq_refl eq_refl)
    as (r & similarity & Hr & _ & _ & _ & _ & Hconf).
  - vm_compute. reflexivity.
  - exists r. split; assumption.
Defined.

(* ------------------------------------------------------------------ *)
(** ** The largest face *)

Lemma largest_face_ratio_of_ratios {Image} (cv : Cv2 Image) (gray : Image) :
  largest_face_ratio_of cv gray
  = Py.max_default 0%Q (face_area_ratios cv gray).
Proof.
  unfold largest_face_ratio_of, face_area_ratios.
  destruct (shape cv gray) as [height width]. reflexivity.
Qed.

(** X19. The largest face ratio is 0 when no face is detected and
    otherwise the largest of the face areas over the image area; so
    without a face there is neither a selfie signal nor a card
    portrait. *)
Theorem largest_face_ratio_is_maximum :
  forall (Image : Type) (M : Modules Image) (cv : Cv2 Image)
         (image : Image),
    let gray := to_gray cv image in
    let largest := largest_face_ratio (measure M cv image) in
    (forall x, In x (face_area_ratios cv gray) -> (x <= largest)%Q)
    /\ (detect_faces cv gray <> [] -> In largest (face_area_ratios cv gray))
    /\ (detect_faces cv gray = [] ->
        largest = 0%Q
        /\ selfie_signal (measure M cv image) = false
        /\ has_card_portrait (measure M cv image) = false).
Proof.
  intros Image M cv image gray largest. subst largest.
  cbn [measure largest_face_ratio]. fold gray.
  rewrite largest_face_ratio_of_ratios.
  destruct (max_default_spec 0 (face_area_ratios cv gray))
    as (Hnil & Hub & Hin).
  split; [exact Hub|]. split.
  - intros Hfaces. apply Hin. unfold face_area_ratios.
    destruct (detect_faces cv gray); [contradiction|discriminate].
  - intros Hfaces.
    assert (Hzero : Py.max_default 0 (face_area_ratios cv gray) = 0%Q).
    { apply Hnil. unfold face_area_ratios. now rewrite Hfaces. }
    split; [exact Hzero|].
    unfold selfie_signal, has_card_portrait.
    cbn [measure largest_face_ratio]. fold gray.
    rewrite largest_face_ratio_of_ratios, Hzero. split; reflexivity.
Qed.

Lemma largest_face_ratio_is_maximum_witness :
  largest_face_ratio
    (measure (Sample.full (Sample.picture 80 0.02 true [] []))
             (Sample.sample_cv2
                (Sample.serving (Sample.picture 80 0.02 true [] [])))
             (Sample.picture 80 0.02 true [] [])) = 0%Q.
Proof.
  refine (proj1 (proj2 (proj2 (largest_face_ratio_is_maximum
                                 _ (Sample.full _) _ _)) _)).
  reflexivity.
Defined.

Example largest_of_two_faces :
  let p := Sample.picture 80 0.02 true
             [(0, 0, 100, 100)%Z; (500, 500, 300, 400)%Z] [] in
  (largest_face_ratio
     (measure (Sample.full p) (Sample.sample_cv2 (Sample.serving p)) p)
   == 0.12)%Q.
Proof. vm_compute. reflexivity. Qed.

(* ------------------------------------------------------------------ *)
(** ** The confidence of a Valid result *)



(* ------------------------------------------------------------------ *)
(** ** Binary64 at work *)

(** Rounding a positive rational gives a multiple of the spacing
    [2^e] of its binade, at most half a spacing away. *)
Lemma round_is_nearest (q : Q) :
  (0 < q)%Q ->
  let e := Binary64.spacing_exponent q in
  exists m : Z,
    (Binary64.round q == inject_Z m * Binary64.pow2 e)%Q
    /\ (inject_Z m * Binary64.pow2 e - q <= (1 # 2) * Binary64.pow2 e)%Q
    /\ (q - inject_Z m * Binary64.pow2 e <= (1 # 2) * Binary64.pow2 e)%Q.
Proof.
  intros Hq e. unfold Binary64.round.
  destruct (Qnum q) as [|n|n] eqn:En;
    try (exfalso; unfold Qlt in Hq; cbn in Hq; rewrite En in Hq; lia).
  unfold Binary64.round_magnitude. fold e.
  set (x := (q * Binary64.pow2 (- e))%Q).
  exists (round_half_even x). split; [apply Qred_correct|].
  pose proof (pow2_pos e) as Hpe.
  assert (Hq' : (q == x * Binary64.pow2 e)%Q).
  { subst x. rewrite <- Qmult_assoc, pow2_inverse. lra. }
  destruct (round_half_even_floor x) as (Hrange & Hhalf).
  pose proof (Qfloor_le x) as Hfl. pose proof (Qlt_floor x) as Hfu.
  assert (Hnear : (inject_Z (round_half_even x) - x <= 1 # 2)%Q
                  /\ (x - inject_Z (round_half_even x) <= 1 # 2)%Q).
  { destruct (Z.eq_dec (round_half_even x) (Qfloor x + 1)) as [E|E].
    - specialize (Hhalf E). rewrite E.
      rewrite inject_Z_plus in *. change (inject_Z 1) with 1%Q in *.
      split; lra.
    - assert (E' : round_half_even x = Qfloor x) by lia. rewrite E'.
      split; [lra|].
      unfold round_half_even in E'.
      destruct ((x - inject_Z (Qfloor x)) ?= 1 # 2)%Q eqn:C.
      + apply Qeq_alt in C. lra.
      + apply Qlt_alt in C. lra.
      + lia. }
  destruct Hnear as [H1 H2]. rewrite Hq'. split.
  - setoid_replace (inject_Z (round_half_even x) * Binary64.pow2 e
                    - x * Binary64.pow2 e)%Q
      with ((inject_Z (round_half_even x) - x) * Binary64.pow2 e)%Q
      by ring.
    apply Qmult_le_compat_r; lra.
  - setoid_replace (x * Binary64.pow2 e
                    - inject_Z (round_half_even x) * Binary64.pow2 e)%Q
      with ((x - inject_Z (round_half_even x)) * Binary64.pow2 e)%Q
      by ring.
    apply Qmult_le_compat_r; lra.
Qed.

(** Literals and sums as binary64 has them. *)
Example binary64_values :
  (Binary64.literal 0.1 == 3602879701896397 # 36028797018963968)%Q
  /\ (Binary64.literal 0.45 == 8106479329266893 # 18014398509481984)%Q
  /\ (Binary64.add (Binary64.literal 0.1) (Binary64.literal 0.2)
      == 1351079888211149 # 4503599627370496)%Q
  /\ (Binary64.add (Binary64.add (Binary64.literal 0.25)
                                 (Binary64.literal 0.10))
                   (Binary64.literal 0.10)
      == 2026619832316723 # 4503599627370496)%Q
  /\ (Binary64.round (9007199254740993 # 1) == 9007199254740992 # 1)%Q
  /\ (Binary64.round (1 # 3) == 6004799503160661 # 18014398509481984)%Q.
Proof. repeat split; vm_compute; reflexivity. Qed.

Lemma forall_bool_holds (P : bool -> bool) (b : bool) :
  forall_bool P = true -> P b = true.
Proof.
  unfold forall_bool. intros H. apply andb_true_iff in H.
  destruct b; tauto.
Qed.

Lemma document_score_flags (m : Measurements) :
  document_score m
  = score_of_flags (has_document_shape m)
      (Py.ge (text_density m) 0.012) (Py.ge (text_density m) 0.008)
      (Py.ge (sharpness (quality m)) 60) (Py.ge (sharpness (quality m)) 40)
      (Py.ge (contrast (quality m)) 25)
      (Py.ge (edge_density (quality m)) 0.03)
      (has_card_portrait m) (selfie_signal m) (screenshot_like_signal m)
      (severe_blur m) (soft_blur m) (poor_lighting m).
Proof. reflexivity. Qed.

(** Every combination of the thirteen tests gives a score on which the
    thresholds agree. *)
Lemma all_scores_agree_holds :
  forall_bool (fun shape =>
  forall_bool (fun td012 =>
  forall_bool (fun td008 =>
  forall_bool (fun sharp60 =>
  forall_bool (fun sharp40 =>
  forall_bool (fun contrast25 =>
  forall_bool (fun edge03 =>
  forall_bool (fun portrait =>
  forall_bool (fun selfie =>
  forall_bool (fun screenshot =>
  forall_bool (fun severe =>
  forall_bool (fun soft =>
  forall_bool (fun lighting =>
  thresholds_agree (score_of_flags shape td012 td008 sharp60 sharp40 contrast25 edge03 portrait selfie screenshot severe soft lighting)))))))))))))) = true.
Proof. vm_compute. reflexivity. Qed.

Lemma thresholds_agree_holds (s : Q) :
  thresholds_agree s = true ->
  Py.ge s 0.45 = Py.ge s (Binary64.literal 0.45)
  /\ Py.ge s 0.55 = Py.ge s (Binary64.literal 0.55)
  /\ Py.ge s 0.40 = Py.ge s (Binary64.literal 0.40).
Proof.
  unfold thresholds_agree. intros H.
  apply andb_true_iff in H. destruct H as [H H3].
  apply andb_true_iff in H. destruct H as [H1 H2].
  split; [|split]; apply Bool.eqb_prop; [exact H1 | exact H2 | exact H3].
Qed.

Lemma score_of_flags_thresholds
  (shape td012 td008 sharp60 sharp40 contrast25 edge03
   portrait selfie screenshot severe soft lighting : bool) :
  thresholds_agree
    (score_of_flags shape td012 td008 sharp60 sharp40 contrast25 edge03
       portrait selfie screenshot severe soft lighting) = true.
Proof.
  pose proof all_scores_agree_holds as H.
  apply (forall_bool_holds _ shape) in H; cbv beta in H.
  apply (forall_bool_holds _ td012) in H; cbv beta in H.
  apply (forall_bool_holds _ td008) in H; cbv beta in H.
  apply (forall_bool_holds _ sharp60) in H; cbv beta in H.
  apply (forall_bool_holds _ sharp40) in H; cbv beta in H.
  apply (forall_bool_holds _ contrast25) in H; cbv beta in H.
  apply (forall_bool_holds _ edge03) in H; cbv beta in H.
  apply (forall_bool_holds _ portrait) in H; cbv beta in H.
  apply (forall_bool_holds _ selfie) in H; cbv beta in H.
  apply (forall_bool_holds _ screenshot) in H; cbv beta in H.
  apply (forall_bool_holds _ severe) in H; cbv beta in H.
  apply (forall_bool_holds _ soft) in H; cbv beta in H.
  apply (forall_bool_holds _ lighting) in H; cbv beta in H.
  exact H.
Qed.

(** Comparing the document score with a threshold as a rational is
    comparing it with the binary64 literal, as the source does. *)
Lemma document_score_thresholds (m : Measurements) :
  Py.ge (document_score m) 0.45
  = Py.ge (document_score m) (Binary64.literal 0.45)
  /\ Py.ge (document_score m) 0.55
     = Py.ge (document_score m) (Binary64.literal 0.55)
  /\ Py.ge (document_score m) 0.40
     = Py.ge (document_score m) (Binary64.literal 0.40).
Proof.
  apply thresholds_agree_holds. rewrite document_score_flags.
  apply score_of_flags_thresholds.
Qed.

(** A card with boundary, sharpness 57 and contrast 30, little text
    and no portrait: the three adjustments 0.25, 0.10 and 0.10 sum to
    less than 0.45 in binary64, and the result is the fallback. *)
Example score_just_below_threshold :
  let m := {| quality := {| brightness := 120; contrast := 30;
                            sharpness := 57; edge_density := 0.01 |};
              text_density := 0.005; largest_face_ratio := 0;
              has_document_shape := true |} in
  (document_score m == 2026619832316723 # 4503599627370496)%Q
  /\ (document_score m < 0.45)%Q
  /\ first_match m "National ID" None None = fallback_branch
  /\ status (decide m "National ID" None None) = Invalid
  /\ message (decide m "National ID" None None)
     = "The submitted National ID image failed document-quality checks.".
Proof. cbv zeta. repeat split; vm_compute; reflexivity. Qed.

(** Two readings whose exact scores are equal (10/3): binary64 gives
    the later one the larger score, and it replaces the earlier one. *)
Example rounded_scores_break_a_tie :
  let p := Sample.card_with_text
             [""; "abcd efgh ijkl mnop qrst 1 2 3";
              "abcde fghij klmno pqrst."; ""] in
  (_text_quality_score "abcd efgh ijkl mnop qrst 1 2 3"
   == 7505999378950826 # 2251799813685248)%Q
  /\ (_text_quality_score "abcde fghij klmno pqrst."
      == 7505999378950827 # 2251799813685248)%Q
  /\ _extract_text_from_image_log (Sample.full p) p
     = ("abcde fghij klmno pqrst.", [0; 90; 270; 180]).
Proof. cbv zeta. repeat split; vm_compute; reflexivity. Qed.

(** A first reading of 308 characters, 20 of them letters, in 77
    tokens: the exact score is 5, the binary64 score is below, and the
    rotations are attempted. *)
Example rounded_score_below_five :
  let text := "ab1 ab1 ab1 ab1 ab1 ab1 ab1 ab1 ab1 ab1 123 123 123 123 123 123 123 123 123 123 123 123 123 123 123 123 123 123 123 123 123 123 123 123 123 123 123 123 123 123 123 123 123 123 123 123 123 123 123 123 123 123 123 123 123 123 123 123 123 123 123 123 123 123 123 123 123 123 123 123 123 123 123 123 123 123 1234" in
  let p := Sample.card_with_text [text; ""; ""; ""] in
  String.length text = 308
  /\ Py.count_chars Py.is_alpha text = 20
  /\ List.length (scored_words text) = 77
  /\ (_text_quality_score text == 5629499534213119 # 1125899906842624)%Q
  /\ (_text_quality_score text < 5)%Q
  /\ snd (_extract_text_from_image_log (Sample.full p) p)
     = [0; 90; 270; 180].
Proof. cbv zeta. repeat split; vm_compute; reflexivity. Qed.
